(** * Order, cart and stock workflow of the e-commerce backend

    A shallow embedding of the order-creation / stock-reservation workflow:
    the Mongoose models [Product], [Cart] and [Order] (models/Product.js,
    models/Cart.js, models/Order.js), the controllers that drive them
    (orderController.js, cartController.js, paymentController.js,
    productController.js) and the request validators of
    middleware/validation.js that guard the routes.

    Conventions of the embedding.
    - A JavaScript [Number] holding money is an exact rational ([Q]); numbers
      holding quantities and stock are integers ([Z]) — the validators
      ([isInt], [toInt]) only let integers through.
    - A [Date] is a number of milliseconds ([Z]); [new Date()] reads the clock,
      which every operation receives as its argument [now].
    - The three collections form the [Store].  Products are keyed by their
      [_id]; carts by their [user] (the schema's unique index); orders are kept
      in insertion order, and an order's [_id] is its position in the
      collection, so that [findOne] returns the first match.
    - A controller is a function in the monad [M]: it threads the store and
      either returns a value or throws one of the error classes of
      middleware/errorHandler.js.  A throw keeps the store as it was when the
      exception was raised.
    - Mongoose is the persistence layer and is taken at the level the code
      uses it: [create] and [save] store the document as the schema defaults
      and the [pre('save')] hook leave it, [populate] is a view (a line's
      [product] is the product's id), and the schema validators, which the
      request validators anticipate, are not modelled.
    - The payment gateway is outside the embedding: a handler that calls it
      is modelled in the case where the gateway answers, and receives the
      answer (the id of the payment intent) as an argument; the webhook
      handlers receive the event's payment intent.
    - Fields that none of the modelled operations reads (addresses, order
      number, notes, tracking number, images, ...) are left out. *)

From Stdlib Require Import ZArith QArith Qround Ascii String List Lia.
From stdpp Require Import base option list gmap strings pretty.
Import ListNotations.

Local Open Scope string_scope.

Abbreviation ObjectId := string.
Abbreviation Date := Z.

(** ** Enumerations of the schemas *)

(** [orderSchema.status.enum] *)
Inductive OrderStatus :=
| pending | confirmed | processing | shipped | delivered | cancelled | refunded.

(** [paymentInfoSchema.status.enum] *)
Inductive PaymentStatus :=
| pay_pending | pay_completed | pay_failed | pay_refunded | pay_cancelled.

(** [paymentInfoSchema.method.enum] *)
Inductive PaymentMethod := stripe | razorpay | cod | bank_transfer.

(** [req.user.role] *)
Inductive Role := role_user | role_admin.

#[global] Instance OrderStatus_eq_dec : EqDecision OrderStatus.
Proof. solve_decision. Defined.
#[global] Instance PaymentStatus_eq_dec : EqDecision PaymentStatus.
Proof. solve_decision. Defined.
#[global] Instance PaymentMethod_eq_dec : EqDecision PaymentMethod.
Proof. solve_decision. Defined.
#[global] Instance Role_eq_dec : EqDecision Role.
Proof. solve_decision. Defined.

(** The string a status is stored as; used when messages interpolate it. *)
Definition status_name (s : OrderStatus) : string :=
  match s with
  | pending => "pending" | confirmed => "confirmed" | processing => "processing"
  | shipped => "shipped" | delivered => "delivered" | cancelled => "cancelled"
  | refunded => "refunded"
  end.

(** ** Error classes (middleware/errorHandler.js) *)

Inductive Error :=
| ValidationError (message : string)
| NotFoundError (resource : string)
| ForbiddenError (message : string)
| InsufficientStockError (productName : string) (available requested : Z)
| PlainError (message : string)                 (* [throw new Error(...)] *)
| ValidationFailed (validationErrors : list (string * string)).
                        (* [handleValidationErrors], 400: (field, message) *)

(** ** Documents *)

Module Product.
Record t := mk {
  name : string;
  price : Q;
  stock : Z;
  isActive : bool
}.

(** [{ $inc: { stock: d } }] *)
Definition inc_stock (d : Z) (p : t) : t :=
  mk (name p) (price p) (stock p + d) (isActive p).

Definition set_price (v : Q) (p : t) : t :=
  mk (name p) v (stock p) (isActive p).
End Product.

Module OrderItem.
Record t := mk {
  product : ObjectId;
  productName : string;
  quantity : Z;
  price : Q;
  total : Q
}.
End OrderItem.

Module PaymentInfo.
Record t := mk {
  method : PaymentMethod;
  transactionId : option string;
  paymentIntentId : option string;
  status : PaymentStatus;
  amount : Q;
  currency : string;
  paidAt : option Date;
  refundedAt : option Date;
  refundAmount : Q
}.

Definition set_status (v : PaymentStatus) (p : t) : t :=
  mk (method p) (transactionId p) (paymentIntentId p) v (amount p)
     (currency p) (paidAt p) (refundedAt p) (refundAmount p).
Definition set_transactionId (v : option string) (p : t) : t :=
  mk (method p) v (paymentIntentId p) (status p) (amount p)
     (currency p) (paidAt p) (refundedAt p) (refundAmount p).
Definition set_paidAt (v : option Date) (p : t) : t :=
  mk (method p) (transactionId p) (paymentIntentId p) (status p) (amount p)
     (currency p) v (refundedAt p) (refundAmount p).
Definition set_refundedAt (v : option Date) (p : t) : t :=
  mk (method p) (transactionId p) (paymentIntentId p) (status p) (amount p)
     (currency p) (paidAt p) v (refundAmount p).
Definition set_refundAmount (v : Q) (p : t) : t :=
  mk (method p) (transactionId p) (paymentIntentId p) (status p) (amount p)
     (currency p) (paidAt p) (refundedAt p) v.
End PaymentInfo.

Module HistoryEntry.
Record t := mk {
  status : OrderStatus;
  timestamp : Date;
  note : string
}.
End HistoryEntry.

Module Order.
Record t := mk {
  user : ObjectId;
  items : list OrderItem.t;
  subtotal : Q;
  tax : Q;
  shippingCost : Q;
  discount : Q;
  totalAmount : Q;
  status : OrderStatus;
  paymentInfo : PaymentInfo.t;
  estimatedDelivery : option Date;
  deliveredAt : option Date;
  cancelledAt : option Date;
  cancellationReason : option string;
  statusHistory : list HistoryEntry.t
}.

Definition set_status (v : OrderStatus) (o : t) : t :=
  mk (user o) (items o) (subtotal o) (tax o) (shippingCost o) (discount o)
     (totalAmount o) v (paymentInfo o) (estimatedDelivery o)
     (deliveredAt o) (cancelledAt o) (cancellationReason o) (statusHistory o).
Definition set_paymentInfo (v : PaymentInfo.t) (o : t) : t :=
  mk (user o) (items o) (subtotal o) (tax o) (shippingCost o) (discount o)
     (totalAmount o) (status o) v (estimatedDelivery o)
     (deliveredAt o) (cancelledAt o) (cancellationReason o) (statusHistory o).
Definition set_estimatedDelivery (v : option Date) (o : t) : t :=
  mk (user o) (items o) (subtotal o) (tax o) (shippingCost o) (discount o)
     (totalAmount o) (status o) (paymentInfo o) v
     (deliveredAt o) (cancelledAt o) (cancellationReason o) (statusHistory o).
Definition set_deliveredAt (v : option Date) (o : t) : t :=
  mk (user o) (items o) (subtotal o) (tax o) (shippingCost o) (discount o)
     (totalAmount o) (status o) (paymentInfo o) (estimatedDelivery o)
     v (cancelledAt o) (cancellationReason o) (statusHistory o).
Definition set_cancelledAt (v : option Date) (o : t) : t :=
  mk (user o) (items o) (subtotal o) (tax o) (shippingCost o) (discount o)
     (totalAmount o) (status o) (paymentInfo o) (estimatedDelivery o)
     (deliveredAt o) v (cancellationReason o) (statusHistory o).
Definition set_cancellationReason (v : option string) (o : t) : t :=
  mk (user o) (items o) (subtotal o) (tax o) (shippingCost o) (discount o)
     (totalAmount o) (status o) (paymentInfo o) (estimatedDelivery o)
     (deliveredAt o) (cancelledAt o) v (statusHistory o).
Definition set_statusHistory (v : list HistoryEntry.t) (o : t) : t :=
  mk (user o) (items o) (subtotal o) (tax o) (shippingCost o) (discount o)
     (totalAmount o) (status o) (paymentInfo o) (estimatedDelivery o)
     (deliveredAt o) (cancelledAt o) (cancellationReason o) v.
Definition set_totals (sub tot : Q) (o : t) : t :=
  mk (user o) (items o) sub (tax o) (shippingCost o) (discount o)
     tot (status o) (paymentInfo o) (estimatedDelivery o)
     (deliveredAt o) (cancelledAt o) (cancellationReason o) (statusHistory o).
End Order.

Module CartItem.
Record t := mk {
  product : ObjectId;
  quantity : Z;
  price : Q
}.

Definition set_quantity (v : Z) (i : t) : t := mk (product i) v (price i).
Definition set_price (v : Q) (i : t) : t := mk (product i) (quantity i) v.
End CartItem.

Module Cart.
Record t := mk {
  items : list CartItem.t;
  totalAmount : Q;
  totalItems : Z;
  lastModified : Date;
  isActive : bool
}.

Definition set_items (v : list CartItem.t) (c : t) : t :=
  mk v (totalAmount c) (totalItems c) (lastModified c) (isActive c).
End Cart.

(** [req.user] as the [authenticate] middleware leaves it. *)
Record User := { user_id : ObjectId; user_role : Role }.

(** ** The store and the controller monad *)

Record Store := mkStore {
  products : gmap string Product.t;
  carts : gmap string Cart.t;
  orders : list Order.t
}.

Definition set_products (v : gmap string Product.t) (s : Store) : Store :=
  mkStore v (carts s) (orders s).
Definition set_carts (v : gmap string Cart.t) (s : Store) : Store :=
  mkStore (products s) v (orders s).
Definition set_orders (v : list Order.t) (s : Store) : Store :=
  mkStore (products s) (carts s) v.

Inductive Result (A : Type) :=
| Ok (a : A)
| Err (e : Error).
Arguments Ok {A} a.
Arguments Err {A} e.

Definition M (A : Type) : Type := Store -> Result A * Store.

Definition ret {A} (a : A) : M A := fun s => (Ok a, s).
Definition throw {A} (e : Error) : M A := fun s => (Err e, s).
Definition bind {A B} (m : M A) (k : A -> M B) : M B :=
  fun s => match m s with
           | (Ok a, s') => k a s'
           | (Err e, s') => (Err e, s')
           end.
Definition gets {A} (f : Store -> A) : M A := fun s => (Ok (f s), s).
Definition modify (f : Store -> Store) : M unit := fun s => (Ok tt, f s).

Declare Scope ctrl_scope.
Delimit Scope ctrl_scope with ctrl.
Notation "x <- m ;; k" := (bind m (fun x => k))
  (at level 100, m at next level, right associativity) : ctrl_scope.
Notation "m ;;; k" := (bind m (fun _ => k))
  (at level 100, right associativity) : ctrl_scope.

(** [for (const x of xs) { ... }] over local variables [b]: stops at the
    first throw. *)
Fixpoint fold_m {A B} (body : B -> A -> M B) (xs : list A) (b : B) : M B :=
  match xs with
  | [] => ret b
  | x :: xs' => bind (body b x) (fun b' => fold_m body xs' b')
  end.

(** [for (const x of xs) await body(x)] : stops at the first throw. *)
Fixpoint for_each {A} (body : A -> M unit) (xs : list A) : M unit :=
  match xs with
  | [] => ret tt
  | x :: xs' => bind (body x) (fun _ => for_each body xs')
  end.

(** ** Collection primitives *)

(** [Product.findById(id)] *)
Definition Product_findById (id : ObjectId) : M (option Product.t) :=
  gets (fun s => products s !! id).

(** [Product.findByIdAndUpdate(id, { $inc: { stock: d } })]: an unconditional
    increment by [d] of the stored counter; nothing happens when no document
    has that id. *)
Definition Product_incStock (id : ObjectId) (d : Z) : M unit :=
  modify (fun s => set_products (alter (Product.inc_stock d) id (products s)) s).

(** [Order.findById(id)] *)
Definition Order_findById (id : nat) : M (option Order.t) :=
  gets (fun s => orders s !! id).

(** [order.save()] of a document that was read from position [id]. *)
Definition Order_save (id : nat) (o : Order.t) : M unit :=
  modify (fun s => set_orders (<[id := o]> (orders s)) s).

(** ** Order model methods (models/Order.js)

    Each method is given as its effect on the in-memory document; the
    [this.save()] that ends it is performed by the caller with [Order_save]. *)

(** [note || `Status changed from ${previousStatus} to ${newStatus}`] *)
Definition or_default (s : string) (d : string) : string :=
  match s with
  | EmptyString => d
  | _ => s
  end.

(** [orderSchema.methods.updateStatus] *)
Definition updateStatus (now : Date) (newStatus : OrderStatus) (note : string)
    (o : Order.t) : Order.t :=
  if decide (Order.status o = newStatus) then o
  else
    let previousStatus := Order.status o in
    let o1 := Order.set_status newStatus o in
    let o2 := Order.set_statusHistory
                (Order.statusHistory o1 ++
                 [HistoryEntry.mk newStatus now
                    (or_default note
                       ("Status changed from " ++ status_name previousStatus ++
                        " to " ++ status_name newStatus))]) o1 in
    if decide (newStatus = delivered) then Order.set_deliveredAt (Some now) o2
    else if decide (newStatus = cancelled) then Order.set_cancelledAt (Some now) o2
    else o2.

(** [Math.round(y)]: the integer nearest to [y], a tie going up. *)
Definition Math_round (y : Q) : Z := Qfloor (y + (1 # 2)).

(** [Math.round(x * 100) / 100] *)
Definition round2 (x : Q) : Q := (inject_Z (Math_round (x * 100)) / 100)%Q.

(** [orderSchema.methods.calculateTotals] *)
Definition Order_calculateTotals (o : Order.t) : Order.t :=
  let sub := fold_left (fun total item => (total + OrderItem.total item)%Q)
                       (Order.items o) 0%Q in
  let tot := (sub + Order.tax o + Order.shippingCost o - Order.discount o)%Q in
  Order.set_totals sub (round2 tot) o.

(** [if (transactionId)]: neither [null] nor the empty string *)
Definition truthy (s : option string) : bool :=
  match s with
  | Some (String _ _) => true
  | _ => false
  end.

(** [orderSchema.methods.updatePaymentStatus]; [transactionId] and [paidAt]
    default to [null]. *)
Definition updatePaymentStatus (now : Date) (status : PaymentStatus)
    (transactionId : option string) (paidAt : option Date)
    (o : Order.t) : Order.t :=
  let o1 := Order.set_paymentInfo
              (PaymentInfo.set_status status (Order.paymentInfo o)) o in
  let o2 := if truthy transactionId
            then Order.set_paymentInfo
                   (PaymentInfo.set_transactionId transactionId
                      (Order.paymentInfo o1)) o1
            else o1 in
  if decide (status = pay_completed) then
    match PaymentInfo.paidAt (Order.paymentInfo o2) with
    | None =>
        let o3 := Order.set_paymentInfo
                    (PaymentInfo.set_paidAt
                       (Some (match paidAt with Some t => t | None => now end))
                       (Order.paymentInfo o2)) o2 in
        if decide (Order.status o3 = pending)
        then updateStatus now confirmed "Payment completed" o3
        else o3
    | Some _ => o2
    end
  else o2.

(** The statuses that [orderSchema.methods.cancelOrder] refuses *)
Definition model_nonCancellable : list OrderStatus :=
  [delivered; cancelled; refunded].

(** [orderSchema.methods.cancelOrder] *)
Definition Order_cancelOrder (now : Date) (reason : string) (o : Order.t)
    : Result Order.t :=
  if bool_decide (Order.status o ∈ model_nonCancellable) then
    Err (PlainError ("Cannot cancel order with status: " ++
                     status_name (Order.status o)))
  else
    let o1 := Order.set_status cancelled o in
    let o2 := Order.set_cancelledAt (Some now) o1 in
    let o3 := Order.set_cancellationReason (Some reason) o2 in
    let o4 := Order.set_statusHistory
                (Order.statusHistory o3 ++
                 [HistoryEntry.mk cancelled now (or_default reason "Order cancelled")])
                o3 in
    if decide (PaymentInfo.status (Order.paymentInfo o4) = pay_completed) then
      let p := Order.paymentInfo o4 in
      Ok (Order.set_paymentInfo
            (PaymentInfo.set_refundAmount (PaymentInfo.amount p)
               (PaymentInfo.set_refundedAt (Some now)
                  (PaymentInfo.set_status pay_refunded p))) o4)
    else Ok o4.

(** ** Order controller (controllers/orderController.js) *)

Local Open Scope ctrl_scope.

(** The table [invalidTransitions] of [updateOrderStatus]; a status that is
    not a key of the object yields [undefined]. *)
Definition invalidTransitions (from : OrderStatus) : option (list OrderStatus) :=
  match from with
  | delivered => Some [pending; confirmed; processing]
  | cancelled => Some [delivered; shipped]
  | refunded => Some [pending; confirmed; processing]
  | _ => None
  end.

Definition transition_forbidden (from to : OrderStatus) : bool :=
  match invalidTransitions from with
  | Some l => bool_decide (to ∈ l)
  | None => false
  end.

(** [updateOrderStatus]: PUT /api/orders/:id/status.  The request's status is
    already one of [validStatuses], which is what the type says. *)
Definition updateOrderStatus (now : Date) (id : nat) (status : OrderStatus)
    (note : string) : M Order.t :=
  found <- Order_findById id ;;
  match found with
  | None => throw (NotFoundError "Order")
  | Some order =>
      if transition_forbidden (Order.status order) status then
        throw (ValidationError
                 ("Cannot change status from " ++ status_name (Order.status order) ++
                  " to " ++ status_name status))
      else
        let order' := updateStatus now status note order in
        Order_save id order' ;;;
        ret order'
  end.

(** [nonCancellableStatuses] of the controller *)
Definition nonCancellableStatuses : list OrderStatus :=
  [delivered; cancelled; refunded; shipped].

(** [cancelOrder]: PUT /api/orders/:id/cancel *)
Definition cancelOrder (now : Date) (requester : User) (id : nat)
    (reason : string) : M Order.t :=
  found <- Order_findById id ;;
  match found with
  | None => throw (NotFoundError "Order")
  | Some order =>
      if bool_decide (Order.user order ≠ user_id requester) &&
         bool_decide (user_role requester ≠ role_admin) then
        throw (ForbiddenError "Access denied. You can only cancel your own orders")
      else if bool_decide (Order.status order ∈ nonCancellableStatuses) then
        throw (ValidationError ("Cannot cancel order with status: " ++
                                status_name (Order.status order)))
      else
        match Order_cancelOrder now reason order with
        | Err e => throw e
        | Ok order' =>
            Order_save id order' ;;;
            for_each (fun item =>
                        Product_incStock (OrderItem.product item)
                                         (OrderItem.quantity item))
                     (Order.items order') ;;;
            ret order'
        end
  end.

(** Request body of POST /api/orders, as far as [createOrder] reads it. *)
Module OrderRequest.
Record item := mk_item {
  product : ObjectId;
  quantity : Z
}.

Record t := mk {
  items : list item;
  method : PaymentMethod;
  currency : string         (* [""] when the field is absent *)
}.
End OrderRequest.

(** [x > y] on numbers *)
Definition Qgtb (x y : Q) : bool := negb (Qle_bool x y).

(** The body of the first loop of [createOrder], over the local variables
    [subtotal] and [orderItems]. *)
Definition check_item (acc : Q * list OrderItem.t) (item : OrderRequest.item)
    : M (Q * list OrderItem.t) :=
  let '(subtotal, orderItems) := acc in
  found <- Product_findById (OrderRequest.product item) ;;
  match found with
  | None => throw (NotFoundError ("Product with ID " ++ OrderRequest.product item))
  | Some product =>
      if negb (Product.isActive product) then
        throw (ValidationError
                 ("Product " ++ Product.name product ++ " is not available"))
      else if (Product.stock product <? OrderRequest.quantity item)%Z then
        throw (InsufficientStockError (Product.name product)
                 (Product.stock product) (OrderRequest.quantity item))
      else
        let itemTotal :=
          (Product.price product * inject_Z (OrderRequest.quantity item))%Q in
        ret ((subtotal + itemTotal)%Q,
             (orderItems ++
              [OrderItem.mk (OrderRequest.product item) (Product.name product)
                 (OrderRequest.quantity item) (Product.price product) itemTotal])%list)
  end.

(** [Order.create(doc)]: the schema defaults, then the [pre('save')] hook of
    a new document (initial history entry, estimated delivery seven days
    ahead), then the insertion.  Returns the new [_id]. *)
Definition Order_create (now : Date) (user : ObjectId)
    (orderItems : list OrderItem.t)
    (subtotal tax shippingCost discount totalAmount : Q)
    (method : PaymentMethod) (currency : string) : M nat :=
  let paymentInfo :=
    PaymentInfo.mk method None None pay_pending totalAmount currency
      None None 0%Q in
  let status := pending in
  let doc :=
    Order.mk user orderItems subtotal tax shippingCost discount totalAmount
      status paymentInfo
      (Some (now + 7 * 24 * 60 * 60 * 1000)%Z) None None None
      [HistoryEntry.mk status now "Order created"] in
  id <- gets (fun s => length (orders s)) ;;
  modify (fun s => set_orders (orders s ++ [doc]) s) ;;;
  ret id.

(** ** Cart model (models/Cart.js) *)

(** [cartSchema.methods.calculateTotals] *)
Definition Cart_calculateTotals (c : Cart.t) : Cart.t :=
  let totalItems :=
    fold_left (fun total item => (total + CartItem.quantity item)%Z)
              (Cart.items c) 0%Z in
  let totalAmount :=
    fold_left (fun total item =>
                 (total + CartItem.price item * inject_Z (CartItem.quantity item))%Q)
              (Cart.items c) 0%Q in
  Cart.mk (Cart.items c) (round2 totalAmount) totalItems
          (Cart.lastModified c) (Cart.isActive c).

(** [cart.save()], with the [pre('save')] hook that recomputes the totals
    and stamps [lastModified]. *)
Definition Cart_presave (now : Date) (c : Cart.t) : Cart.t :=
  let c1 := Cart_calculateTotals c in
  Cart.mk (Cart.items c1) (Cart.totalAmount c1) (Cart.totalItems c1)
          now (Cart.isActive c1).

Definition Cart_save (now : Date) (user : ObjectId) (c : Cart.t) : M Cart.t :=
  let c2 := Cart_presave now c in
  modify (fun s => set_carts (<[user := c2]> (carts s)) s) ;;;
  ret c2.

(** [cartSchema.statics.findByUser]: [findOne({ user, isActive: true })] *)
Definition Cart_findByUser (user : ObjectId) : M (option Cart.t) :=
  gets (fun s => match carts s !! user with
                 | Some c => if Cart.isActive c then Some c else None
                 | None => None
                 end).

(** [cartSchema.statics.findOrCreateCart].  The collection has a unique index
    on [user]: saving a second cart for a user whose stored cart is inactive
    is refused by the database. *)
Definition Cart_findOrCreateCart (now : Date) (user : ObjectId) : M Cart.t :=
  found <- Cart_findByUser user ;;
  match found with
  | Some cart => ret cart
  | None =>
      taken <- gets (fun s => carts s !! user) ;;
      match taken with
      | Some _ => throw (PlainError "E11000 duplicate key error")
      | None => Cart_save now user (Cart.mk [] 0%Q 0%Z now true)
      end
  end.

(** [this.items.findIndex(item => item.product.toString() === productId.toString())] *)
Definition findIndex (productId : ObjectId) (items : list CartItem.t) : option nat :=
  fst <$> list_find (fun item => CartItem.product item = productId) items.

(** [cartSchema.methods.addItem] *)
Definition Cart_addItem (now : Date) (user : ObjectId) (productId : ObjectId)
    (quantity : Z) (price : Q) (c : Cart.t) : M Cart.t :=
  let items' :=
    match findIndex productId (Cart.items c) with
    | Some existingItemIndex =>
        alter (fun item =>
                 CartItem.set_price price
                   (CartItem.set_quantity (CartItem.quantity item + quantity)%Z item))
              existingItemIndex (Cart.items c)
    | None => (Cart.items c ++ [CartItem.mk productId quantity price])%list
    end in
  Cart_save now user (Cart_calculateTotals (Cart.set_items items' c)).

(** [cartSchema.methods.clearCart] *)
Definition Cart_clearCart (now : Date) (user : ObjectId) (c : Cart.t) : M Cart.t :=
  Cart_save now user
    (Cart.mk [] 0%Q 0%Z (Cart.lastModified c) (Cart.isActive c)).


(** An entry of the array [validationErrors]. *)
Record ValidationProblem := mkProblem {
  productId : ObjectId;
  productName : option string;
  error : string
}.

(** One iteration of the loop of [validateItems]: either a problem is
    recorded, or the item's price is brought up to the product's. *)
Definition validate_item (ps : gmap string Product.t) (item : CartItem.t)
    : option ValidationProblem * CartItem.t :=
  match ps !! CartItem.product item with
  | None => (Some (mkProblem (CartItem.product item) None "Product not found"), item)
  | Some product =>
      if negb (Product.isActive product) then
        (Some (mkProblem (CartItem.product item) (Some (Product.name product))
                 "Product is no longer available"), item)
      else if (Product.stock product <? CartItem.quantity item)%Z then
        (Some (mkProblem (CartItem.product item) (Some (Product.name product))
                 ("Insufficient stock. Available: " ++ pretty (Product.stock product) ++
                  ", Requested: " ++ pretty (CartItem.quantity item))), item)
      else if Qeq_bool (CartItem.price item) (Product.price product) then
        (None, item)
      else (None, CartItem.set_price (Product.price product) item)
  end.

Fixpoint validate_loop (ps : gmap string Product.t) (items : list CartItem.t)
    : list ValidationProblem * list CartItem.t :=
  match items with
  | [] => ([], [])
  | item :: rest =>
      let '(problem, item') := validate_item ps item in
      let '(problems, rest') := validate_loop ps rest in
      (match problem with Some e => e :: problems | None => problems end,
       item' :: rest')
  end.

(** [cartSchema.methods.validateItems]: returns the problems together with
    the in-memory document, whose prices the loop may have refreshed; the
    document is saved only when there is no problem. *)
Definition Cart_validateItems (now : Date) (user : ObjectId) (c : Cart.t)
    : M (list ValidationProblem * Cart.t) :=
  ps <- gets products ;;
  let '(validationErrors, items') := validate_loop ps (Cart.items c) in
  let c1 := Cart.set_items items' c in
  match validationErrors with
  | [] =>
      c2 <- Cart_save now user (Cart_calculateTotals c1) ;;
      ret ([], c2)
  | _ => ret (validationErrors, c1)
  end.

(** ** Order creation (controllers/orderController.js) *)

(** [createOrder]: POST /api/orders.  The response carries the order as it
    is read back by [Order.findById(order._id)]. *)
Definition createOrder (now : Date) (requester : User) (body : OrderRequest.t)
    : M (option Order.t) :=
  let items := OrderRequest.items body in
  match items with
  | [] => throw (ValidationError "Order must contain at least one item")
  | _ :: _ =>
      acc <- fold_m check_item items (0%Q, []) ;;
      let '(subtotal, orderItems) := acc in
      let tax := (subtotal * (1 # 10))%Q in
      let shippingCost := if Qgtb subtotal 500 then 0%Q else 50%Q in
      let discount := 0%Q in
      let totalAmount := (subtotal + tax + shippingCost - discount)%Q in
      id <- Order_create now (user_id requester) orderItems
              subtotal tax shippingCost discount totalAmount
              (OrderRequest.method body)
              (or_default (OrderRequest.currency body) "INR") ;;
      for_each (fun item =>
                  Product_incStock (OrderRequest.product item)
                                   (- OrderRequest.quantity item))
               items ;;;
      cart <- Cart_findByUser (user_id requester) ;;
      match cart with
       | Some c => Cart_clearCart now (user_id requester) c ;;; ret tt
       | None => ret tt
       end ;;;
      Order_findById id
  end.

(** [updateProduct]: PUT /api/products/:id, the catalog edit through which a
    price changes; [update] is the effect of the request's fields on the
    document. *)
Definition updateProduct (id : ObjectId) (update : Product.t -> Product.t)
    : M Product.t :=
  found <- Product_findById id ;;
  match found with
  | None => throw (NotFoundError "Product")
  | Some product =>
      modify (fun s => set_products (<[id := update product]> (products s)) s) ;;;
      ret (update product)
  end.

(** ** Cart controller (controllers/cartController.js) *)

(** What a response shows of a cart. *)
Record CartView := mkView {
  view_items : list CartItem.t;
  view_totalAmount : Q;
  view_totalItems : Z
}.

Definition view (c : Cart.t) : CartView :=
  mkView (Cart.items c) (Cart.totalAmount c) (Cart.totalItems c).

Record CartResponse := mkResponse {
  cart : CartView;
  warnings : option (list ValidationProblem)   (* [None]: no such field *)
}.

(** [validationErrors.some(error => error.productId.toString() === item.product.toString())] *)
Definition has_problem (validationErrors : list ValidationProblem)
    (item : CartItem.t) : bool :=
  existsb (fun e => bool_decide (productId e = CartItem.product item))
          validationErrors.

(** [getCart]: GET /api/cart *)
Definition getCart (now : Date) (requester : User) : M CartResponse :=
  found <- Cart_findByUser (user_id requester) ;;
  match found with
  | None => ret (mkResponse (mkView [] 0%Q 0%Z) None)
  | Some c =>
      validated <- Cart_validateItems now (user_id requester) c ;;
      let '(validationErrors, c1) := validated in
      match validationErrors with
      | _ :: _ =>
          let c2 := Cart.set_items
                      (List.filter (fun item => negb (has_problem validationErrors item))
                                   (Cart.items c1)) c1 in
          c3 <- Cart_save now (user_id requester) c2 ;;
          ret (mkResponse (view c3) (Some validationErrors))
      | [] => ret (mkResponse (view c1) None)
      end
  end.

(** [addToCart]: POST /api/cart/add, behind [validateAddToCart] *)
Definition addToCart (now : Date) (requester : User) (productId : ObjectId)
    (quantity : Z) : M CartView :=
  found <- Product_findById productId ;;
  match found with
  | None => throw (NotFoundError "Product")
  | Some product =>
      if negb (Product.isActive product) then
        throw (ValidationError "Product is not available")
      else if (Product.stock product <? quantity)%Z then
        throw (InsufficientStockError (Product.name product)
                 (Product.stock product) quantity)
      else
        c <- Cart_findOrCreateCart now (user_id requester) ;;
        let existingItem :=
          List.find (fun item => bool_decide (CartItem.product item = productId))
                    (Cart.items c) in
        let totalRequestedQuantity :=
          match existingItem with
          | Some item => (CartItem.quantity item + quantity)%Z
          | None => quantity
          end in
        if (Product.stock product <? totalRequestedQuantity)%Z then
          throw (InsufficientStockError (Product.name product)
                   (Product.stock product) totalRequestedQuantity)
        else
          c' <- Cart_addItem now (user_id requester) productId quantity
                  (Product.price product) c ;;
          ret (view c')
  end.

(** ** Request validation (middleware/validation.js) *)

Definition is_hex (c : ascii) : bool :=
  let n := nat_of_ascii c in
  ((48 <=? n) && (n <=? 57) || (65 <=? n) && (n <=? 70) ||
   (97 <=? n) && (n <=? 102))%nat.

(** [isMongoId()]: twenty-four hexadecimal digits *)
Definition isMongoId (s : string) : bool :=
  (String.length s =? 24)%nat && forallb is_hex (list_ascii_of_string s).

(** [validateAddToCart]: the list of (field, message) that
    [handleValidationErrors] reports; [quantity] is optional. *)
Definition validateAddToCart (productId : string) (quantity : option Z)
    : list (string * string) :=
  ((match productId with
    | EmptyString => [("productId", "Product ID is required")]
    | _ => []
    end) ++
   (if isMongoId productId then []
    else [("productId", "Invalid product ID format")]) ++
   (match quantity with
    | Some q => if ((1 <=? q) && (q <=? 99))%Z then []
                else [("quantity", "Quantity must be between 1 and 99")]
    | None => []
    end))%list.

(** POST /api/cart/add: [router.post('/add', validateAddToCart, addToCart)];
    [const { productId, quantity = 1 } = req.body]. *)
Definition post_cart_add (now : Date) (requester : User) (productId : string)
    (quantity : option Z) : M CartView :=
  match validateAddToCart productId quantity with
  | [] => addToCart now requester productId (default 1%Z quantity)
  | errors => throw (ValidationFailed errors)
  end.

(** [validateOrderCreation], for the fields of the request that the model
    keeps: a non-empty [items] array, every [product] a Mongo id, every
    [quantity] an integer that is at least 1, and a payment method among
    stripe, razorpay and cod. *)
Definition validateOrderCreation (body : OrderRequest.t) : list (string * string) :=
  ((match OrderRequest.items body with
    | [] => [("items", "Order must contain at least one item")]
    | _ => []
    end) ++
   concat (imap (fun i item =>
                   if isMongoId (OrderRequest.product item) then []
                   else [("items[" +:+ pretty i +:+ "].product",
                          "Invalid product ID format")])
                (OrderRequest.items body)) ++
   concat (imap (fun i item =>
                   if (1 <=? OrderRequest.quantity item)%Z then []
                   else [("items[" +:+ pretty i +:+ "].quantity",
                          "Item quantity must be at least 1")])
                (OrderRequest.items body)) ++
   (if bool_decide (OrderRequest.method body ∈ [stripe; razorpay; cod]) then []
    else [("paymentInfo.method", "Invalid payment method")]))%list.

(** POST /api/orders: [router.post('/', validateOrderCreation, createOrder)] *)
Definition post_orders (now : Date) (requester : User) (body : OrderRequest.t)
    : M (option Order.t) :=
  match validateOrderCreation body with
  | [] => createOrder now requester body
  | errors => throw (ValidationFailed errors)
  end.

(** ** Payment reconciliation (controllers/paymentController.js) *)

(** The fields of a Stripe payment intent that the handlers read. *)
Record PaymentIntent := mkIntent {
  intent_id : string;
  created : Z                       (* seconds *)
}.

(** The filter [{ 'paymentInfo.paymentIntentId': id }] *)
Definition has_intent (id : string) (o : Order.t) : Prop :=
  PaymentInfo.paymentIntentId (Order.paymentInfo o) = Some id.

#[global] Instance has_intent_dec id o : Decision (has_intent id o).
Proof. unfold has_intent. apply _. Defined.

(** [Order.findOne({ 'paymentInfo.paymentIntentId': id })]: the position of
    the first order that matches, with the order. *)
Definition Order_findOneByIntent (id : string) : M (option (nat * Order.t)) :=
  gets (fun s => list_find (has_intent id) (orders s)).

(** [handleStripePaymentSuccess], the handler of the webhook event
    [payment_intent.succeeded]. *)
Definition handleStripePaymentSuccess (now : Date) (paymentIntent : PaymentIntent)
    : M unit :=
  found <- Order_findOneByIntent (intent_id paymentIntent) ;;
  match found with
  | Some (id, order) =>
      if bool_decide (PaymentInfo.status (Order.paymentInfo order) ≠ pay_completed)
      then
        Order_save id
          (updatePaymentStatus now pay_completed (Some (intent_id paymentIntent))
             (Some (created paymentIntent * 1000)%Z) order)
      else ret tt
  | None => ret tt
  end.

(** ** Cart model, the other methods (models/Cart.js) *)

(** [cartSchema.methods.updateItemQuantity]; [splice(itemIndex, 1)] removes
    the line at that position. *)
Definition Cart_updateItemQuantity (now : Date) (user : ObjectId)
    (productId : ObjectId) (quantity : Z) (c : Cart.t) : M Cart.t :=
  match findIndex productId (Cart.items c) with
  | None => throw (PlainError "Product not found in cart")
  | Some itemIndex =>
      let items' :=
        if (quantity <=? 0)%Z then delete itemIndex (Cart.items c)
        else alter (CartItem.set_quantity quantity) itemIndex (Cart.items c) in
      Cart_save now user (Cart_calculateTotals (Cart.set_items items' c))
  end.

(** [cartSchema.methods.removeItem] *)
Definition Cart_removeItem (now : Date) (user : ObjectId)
    (productId : ObjectId) (c : Cart.t) : M Cart.t :=
  match findIndex productId (Cart.items c) with
  | None => throw (PlainError "Product not found in cart")
  | Some itemIndex =>
      Cart_save now user
        (Cart_calculateTotals (Cart.set_items (delete itemIndex (Cart.items c)) c))
  end.

(** ** Cart controller, the other handlers (controllers/cartController.js) *)

(** [updateCartItem]: PUT /api/cart/update, behind [validateUpdateCartItem] *)
Definition updateCartItem (now : Date) (requester : User) (productId : ObjectId)
    (quantity : Z) : M CartView :=
  if (quantity <? 0)%Z then throw (ValidationError "Quantity cannot be negative")
  else
    found <- Cart_findByUser (user_id requester) ;;
    match found with
    | None => throw (NotFoundError "Cart")
    | Some c =>
        if (quantity =? 0)%Z then
          c' <- Cart_removeItem now (user_id requester) productId c ;;
          ret (view c')
        else
          product <- Product_findById productId ;;
          match product with
          | None => throw (NotFoundError "Product")
          | Some p =>
              if negb (Product.isActive p) then
                throw (ValidationError "Product is not available")
              else if (Product.stock p <? quantity)%Z then
                throw (InsufficientStockError (Product.name p) (Product.stock p)
                         quantity)
              else
                c' <- Cart_updateItemQuantity now (user_id requester) productId
                        quantity c ;;
                ret (view c')
          end
    end.

(** [validateUpdateCartItem]; here [quantity] is required. *)
Definition validateUpdateCartItem (productId : string) (quantity : option Z)
    : list (string * string) :=
  ((match productId with
    | EmptyString => [("productId", "Product ID is required")]
    | _ => []
    end) ++
   (if isMongoId productId then []
    else [("productId", "Invalid product ID format")]) ++
   (match quantity with
    | Some q => if ((1 <=? q) && (q <=? 99))%Z then []
                else [("quantity", "Quantity must be between 1 and 99")]
    | None => [("quantity", "Quantity must be between 1 and 99")]
    end))%list.

(** PUT /api/cart/update:
    [router.put('/update', validateUpdateCartItem, updateCartItem)].  The
    controller runs only on a validated body, whose quantity is present. *)
Definition put_cart_update (now : Date) (requester : User) (productId : string)
    (quantity : option Z) : M CartView :=
  match validateUpdateCartItem productId quantity, quantity with
  | [], Some q => updateCartItem now requester productId q
  | errors, _ => throw (ValidationFailed errors)
  end.

(** [removeFromCart]: the handler of DELETE /api/cart/remove/:productId *)
Definition removeFromCart (now : Date) (requester : User) (productId : ObjectId)
    : M CartView :=
  found <- Cart_findByUser (user_id requester) ;;
  match found with
  | None => throw (NotFoundError "Cart")
  | Some c =>
      c' <- Cart_removeItem now (user_id requester) productId c ;;
      ret (view c')
  end.

(** [clearCart]: DELETE /api/cart/clear; the response shows the literal
    empty cart. *)
Definition clearCart (now : Date) (requester : User) : M CartView :=
  found <- Cart_findByUser (user_id requester) ;;
  match found with
  | None => throw (NotFoundError "Cart")
  | Some c =>
      Cart_clearCart now (user_id requester) c ;;;
      ret (mkView [] 0%Q 0%Z)
  end.


(** The response of POST /api/cart/validate; [cart] is absent when the user
    has no cart. *)
Record ValidateResponse := mkValidateResponse {
  isValid : bool;
  errors : list ValidationProblem;
  validated_cart : option CartView
}.

(** [validateCart]: POST /api/cart/validate *)
Definition validateCart (now : Date) (requester : User) : M ValidateResponse :=
  found <- Cart_findByUser (user_id requester) ;;
  match found with
  | None => ret (mkValidateResponse true [] None)
  | Some c =>
      validated <- Cart_validateItems now (user_id requester) c ;;
      let '(validationErrors, c1) := validated in
      ret (mkValidateResponse
             (bool_decide (length validationErrors = 0%nat))
             validationErrors (Some (view c1)))
  end.

(** ** Product controller (controllers/productController.js) *)

(** [deleteProduct]: DELETE /api/products/:id, a soft delete. *)
Definition deleteProduct (id : ObjectId) : M unit :=
  found <- Product_findById id ;;
  match found with
  | None => throw (NotFoundError "Product")
  | Some product =>
      modify (fun s =>
                set_products
                  (alter (fun p => Product.mk (Product.name p) (Product.price p)
                                     (Product.stock p) false) id (products s)) s)
  end.

(** [updateStock]: PATCH /api/products/:id/stock; [operation] defaults to
    ["set"].  The request's quantity is taken to be an integer. *)
Definition updateStock (id : ObjectId) (quantity : Z) (operation : string)
    : M Product.t :=
  if (quantity <? 0)%Z then
    throw (ValidationError "Quantity must be a non-negative number")
  else
    found <- Product_findById id ;;
    match found with
    | None => throw (NotFoundError "Product")
    | Some product =>
        let save (p : Product.t) : M Product.t :=
          modify (fun s => set_products (<[id := p]> (products s)) s) ;;;
          ret p in
        if String.eqb operation "set" then
          save (Product.mk (Product.name product) (Product.price product)
                  quantity (Product.isActive product))
        else if String.eqb operation "increase" then
          save (Product.inc_stock quantity product)
        else if String.eqb operation "decrease" then
          if (Product.stock product <? quantity)%Z then
            throw (ValidationError "Insufficient stock for decrease operation")
          else save (Product.inc_stock (- quantity) product)
        else
          throw (ValidationError "Invalid operation. Use set, increase, or decrease")
    end.

(** ** Payment controller, the other handlers (controllers/paymentController.js) *)

(** [order.paymentInfo.paymentIntentId = paymentIntent.id] *)
Definition record_intent (intentId : string) (o : Order.t) : Order.t :=
  let p := Order.paymentInfo o in
  Order.set_paymentInfo
    (PaymentInfo.mk (PaymentInfo.method p) (PaymentInfo.transactionId p)
       (Some intentId) (PaymentInfo.status p) (PaymentInfo.amount p)
       (PaymentInfo.currency p) (PaymentInfo.paidAt p) (PaymentInfo.refundedAt p)
       (PaymentInfo.refundAmount p)) o.

(** [createStripePaymentIntent]: POST /api/payments/stripe/create-payment-intent,
    in the case where the gateway answers [stripe.paymentIntents.create] with
    an intent whose id is [intentId]. *)
Definition createStripePaymentIntent (requester : User) (orderId : nat)
    (amount : Q) (intentId : string) : M string :=
  found <- Order_findById orderId ;;
  match found with
  | None => throw (NotFoundError "Order")
  | Some order =>
      if bool_decide (Order.user order ≠ user_id requester) then
        throw (ValidationError "You can only pay for your own orders")
      else if bool_decide (PaymentInfo.status (Order.paymentInfo order) = pay_completed)
      then throw (ValidationError "Order is already paid")
      else if negb (Qeq_bool amount (Order.totalAmount order)) then
        throw (ValidationError "Payment amount does not match order total")
      else
        Order_save orderId (record_intent intentId order) ;;;
        ret intentId
  end.

(** [handleStripePaymentFailure], the handler of the webhook event
    [payment_intent.payment_failed]. *)
Definition handleStripePaymentFailure (now : Date) (paymentIntent : PaymentIntent)
    : M unit :=
  found <- Order_findOneByIntent (intent_id paymentIntent) ;;
  match found with
  | Some (id, order) =>
      Order_save id (updatePaymentStatus now pay_failed None None order)
  | None => ret tt
  end.

(** ** Bookkeeping used to state the properties *)

(** The total quantity that the lines of [l] carry for product [pid]. *)
Fixpoint quantity_of {A} (key : A -> ObjectId) (qty : A -> Z) (pid : ObjectId)
    (l : list A) : Z :=
  match l with
  | [] => 0
  | x :: l' =>
      ((if decide (key x = pid) then qty x else 0) + quantity_of key qty pid l')%Z
  end.

(** The catalog after the increments [{ $inc: { stock: qty x } }] on product
    [key x], for the lines [x] of [l] in order. *)
Definition apply_incs {A} (key : A -> ObjectId) (qty : A -> Z) (l : list A)
    (ps : gmap string Product.t) : gmap string Product.t :=
  fold_left (fun ps x => alter (Product.inc_stock (qty x)) (key x) ps) l ps.

(** A request line that passes the three checks of [createOrder]'s first
    loop against the catalog [ps]. *)
Definition item_available (ps : gmap string Product.t)
    (item : OrderRequest.item) : Prop :=
  exists p, ps !! OrderRequest.product item = Some p /\
            Product.isActive p = true /\
            (OrderRequest.quantity item <= Product.stock p)%Z.

#[global] Instance item_available_dec ps item : Decision (item_available ps item).
Proof.
  unfold item_available.
  destruct (ps !! OrderRequest.product item) as [p|] eqn:Hlook.
  - destruct (Product.isActive p) eqn:Hact.
    + destruct (Z_le_dec (OrderRequest.quantity item) (Product.stock p)) as [Hle|Hgt].
      * left. exists p. now split_and!.
      * right. intros (p' & [= <-] & _ & Hle). contradiction.
    + right. intros (p' & [= <-] & Hact' & _). congruence.
  - right. intros (p' & Hp' & _). discriminate.
Defined.

(** The error that the first loop raises for a request line. *)
Definition item_refused (ps : gmap string Product.t)
    (item : OrderRequest.item) (e : Error) : Prop :=
  (ps !! OrderRequest.product item = None /\
   e = NotFoundError ("Product with ID " ++ OrderRequest.product item)) \/
  (exists p, ps !! OrderRequest.product item = Some p /\
             Product.isActive p = false /\
             e = ValidationError ("Product " ++ Product.name p ++ " is not available")) \/
  (exists p, ps !! OrderRequest.product item = Some p /\
             Product.isActive p = true /\
             (Product.stock p < OrderRequest.quantity item)%Z /\
             e = InsufficientStockError (Product.name p) (Product.stock p)
                   (OrderRequest.quantity item)).

(** The order line that the first loop builds for a request line. *)
Definition is_line (ps : gmap string Product.t) (item : OrderRequest.item)
    (line : OrderItem.t) : Prop :=
  exists p, ps !! OrderRequest.product item = Some p /\
            line = OrderItem.mk (OrderRequest.product item) (Product.name p)
                     (OrderRequest.quantity item) (Product.price p)
                     (Product.price p * inject_Z (OrderRequest.quantity item))%Q.

(** A cart line whose product is missing, inactive, or has less stock than
    the line's quantity. *)
Definition item_invalid (ps : gmap string Product.t) (item : CartItem.t) : Prop :=
  match ps !! CartItem.product item with
  | None => True
  | Some p => Product.isActive p = false \/
              (Product.stock p < CartItem.quantity item)%Z
  end.


(** The running sum [subtotal += itemTotal] over the lines built. *)
Definition sum_totals (lines : list OrderItem.t) (start : Q) : Q :=
  fold_left (fun total line => (total + OrderItem.total line)%Q) lines start.

(** The carts after [createOrder] has cleared the requester's active cart;
    the saved total is what [calculateTotals] makes of an empty cart. *)
Definition carts_after_clear (now : Date) (user : ObjectId)
    (cs : gmap string Cart.t) : gmap string Cart.t :=
  match cs !! user with
  | Some c =>
      if Cart.isActive c
      then <[user := Cart.mk [] (round2 0) 0%Z now (Cart.isActive c)]> cs
      else cs
  | None => cs
  end.

(** ** The workflow as a machine

    The requests that the modelled routes and webhook handlers accept, and
    the store each leaves behind, whether it answers or throws. *)

Inductive Op :=
| OpCreateOrder (now : Date) (requester : User) (body : OrderRequest.t)
| OpUpdateOrderStatus (now : Date) (id : nat) (status : OrderStatus) (note : string)
| OpCancelOrder (now : Date) (requester : User) (id : nat) (reason : string)
| OpPaymentIntent (requester : User) (orderId : nat) (amount : Q) (intentId : string)
| OpPaymentSucceeded (now : Date) (paymentIntent : PaymentIntent)
| OpPaymentFailed (now : Date) (paymentIntent : PaymentIntent)
| OpGetCart (now : Date) (requester : User)
| OpAddToCart (now : Date) (requester : User) (productId : string) (quantity : option Z)
| OpUpdateCartItem (now : Date) (requester : User) (productId : string)
    (quantity : option Z)
| OpRemoveFromCart (now : Date) (requester : User) (productId : ObjectId)
| OpClearCart (now : Date) (requester : User)
| OpValidateCart (now : Date) (requester : User)
| OpSetPrice (id : ObjectId) (price : Q)
| OpDeleteProduct (id : ObjectId)
| OpUpdateStock (id : ObjectId) (quantity : Z) (operation : string).

Definition run (op : Op) (s : Store) : Store :=
  match op with
  | OpCreateOrder now requester body => snd (post_orders now requester body s)
  | OpUpdateOrderStatus now id status note =>
      snd (updateOrderStatus now id status note s)
  | OpCancelOrder now requester id reason => snd (cancelOrder now requester id reason s)
  | OpPaymentIntent requester orderId amount intentId =>
      snd (createStripePaymentIntent requester orderId amount intentId s)
  | OpPaymentSucceeded now paymentIntent =>
      snd (handleStripePaymentSuccess now paymentIntent s)
  | OpPaymentFailed now paymentIntent =>
      snd (handleStripePaymentFailure now paymentIntent s)
  | OpGetCart now requester => snd (getCart now requester s)
  | OpAddToCart now requester productId quantity =>
      snd (post_cart_add now requester productId quantity s)
  | OpUpdateCartItem now requester productId quantity =>
      snd (put_cart_update now requester productId quantity s)
  | OpRemoveFromCart now requester productId =>
      snd (removeFromCart now requester productId s)
  | OpClearCart now requester => snd (clearCart now requester s)
  | OpValidateCart now requester => snd (validateCart now requester s)
  | OpSetPrice id price => snd (updateProduct id (Product.set_price price) s)
  | OpDeleteProduct id => snd (deleteProduct id s)
  | OpUpdateStock id quantity operation => snd (updateStock id quantity operation s)
  end.

Definition run_all (ops : list Op) (s : Store) : Store :=
  fold_left (fun s op => run op s) ops s.

(** The request body of an order creation, if the request is one. *)
Definition created_body (op : Op) : option OrderRequest.t :=
  match op with
  | OpCreateOrder _ _ body => Some body
  | _ => None
  end.

(** No product is named on two lines of the request. *)
Definition distinct_lines (body : option OrderRequest.t) : Prop :=
  match body with
  | Some b => NoDup (OrderRequest.product <$> OrderRequest.items b)
  | None => True
  end.

(** What stays of an order for ever: owner, line items, totals, the amount to
    pay and the estimated delivery. *)
Definition frozen (o o' : Order.t) : Prop :=
  Order.user o' = Order.user o /\
  Order.items o' = Order.items o /\
  Order.subtotal o' = Order.subtotal o /\
  Order.tax o' = Order.tax o /\
  Order.shippingCost o' = Order.shippingCost o /\
  Order.discount o' = Order.discount o /\
  Order.totalAmount o' = Order.totalAmount o /\
  PaymentInfo.amount (Order.paymentInfo o') = PaymentInfo.amount (Order.paymentInfo o) /\
  Order.estimatedDelivery o' = Order.estimatedDelivery o.

(** Consistency of an order document: the last history entry carries the
    current status; a cancelled (delivered) order has its [cancelledAt]
    ([deliveredAt]); a completed payment has its [paidAt]; a refunded payment
    has its [refundedAt], refunds the whole amount and belongs to an order
    that was cancelled; every line has a quantity of at least 1. *)
Definition order_wf (o : Order.t) : Prop :=
  HistoryEntry.status <$> last (Order.statusHistory o) = Some (Order.status o) /\
  (Order.status o = cancelled -> is_Some (Order.cancelledAt o)) /\
  (Order.status o = delivered -> is_Some (Order.deliveredAt o)) /\
  (PaymentInfo.status (Order.paymentInfo o) = pay_completed ->
   is_Some (PaymentInfo.paidAt (Order.paymentInfo o))) /\
  (PaymentInfo.status (Order.paymentInfo o) = pay_refunded ->
   is_Some (PaymentInfo.refundedAt (Order.paymentInfo o)) /\
   PaymentInfo.refundAmount (Order.paymentInfo o) =
     PaymentInfo.amount (Order.paymentInfo o) /\
   is_Some (Order.cancelledAt o)) /\
  Forall (fun line => (1 <= OrderItem.quantity line)%Z) (Order.items o).

(** Consistency of a cart's lines: no product twice, every quantity at least
    1; and of its stored totals. *)
Definition lines_ok (items : list CartItem.t) : Prop :=
  NoDup (CartItem.product <$> items) /\
  Forall (fun item => (1 <= CartItem.quantity item)%Z) items.

Definition totals_ok (c : Cart.t) : Prop :=
  Cart.totalItems c =
    fold_left (fun total item => (total + CartItem.quantity item)%Z) (Cart.items c) 0%Z /\
  (Cart.totalAmount c ==
   round2 (fold_left (fun total item =>
                        (total + CartItem.price item * inject_Z (CartItem.quantity item))%Q)
                     (Cart.items c) 0%Q))%Q.


Definition stock_nonneg (ps : gmap string Product.t) : Prop :=
  forall id p, ps !! id = Some p -> (0 <= Product.stock p)%Z.

(** The lines of a user's stored cart, none when there is no cart. *)
Definition old_lines (cs : gmap string Cart.t) (user : ObjectId) : list CartItem.t :=
  match cs !! user with
  | Some c => Cart.items c
  | None => []
  end.

(** The ways in which the modelled code changes an order document. *)
Inductive doc_step : Order.t -> Order.t -> Prop :=
| step_status now t note o : doc_step o (updateStatus now t note o)
| step_cancel now reason o o' :
    Order_cancelOrder now reason o = Ok o' -> doc_step o o'
| step_completed now tid paid o :
    doc_step o (updatePaymentStatus now pay_completed tid paid o)
| step_failed now tid paid o :
    doc_step o (updatePaymentStatus now pay_failed tid paid o)
| step_intent i o : doc_step o (record_intent i o).

(** The totals of an order are those of its lines, as [createOrder] computes
    them: every line total is price times quantity, the subtotal is their
    sum, tax is a tenth of it, shipping is free above 500 and 50 otherwise,
    and the total, which is the amount to pay, is their sum less the
    discount. *)
Definition priced (o : Order.t) : Prop :=
  Forall (fun line =>
            (OrderItem.total line ==
             OrderItem.price line * inject_Z (OrderItem.quantity line))%Q)
         (Order.items o) /\
  (Order.subtotal o == sum_totals (Order.items o) 0)%Q /\
  (Order.tax o == Order.subtotal o * (1 # 10))%Q /\
  (Order.shippingCost o == if Qgtb (Order.subtotal o) 500 then 0 else 50)%Q /\
  (Order.totalAmount o ==
   Order.subtotal o + Order.tax o + Order.shippingCost o - Order.discount o)%Q /\
  (PaymentInfo.amount (Order.paymentInfo o) == Order.totalAmount o)%Q.

(** The user on whose behalf a request is served; none for the requests of
    the administration routes and of the payment gateway. *)
Definition requester_of (op : Op) : option User :=
  match op with
  | OpCreateOrder _ requester _ => Some requester
  | OpCancelOrder _ requester _ _ => Some requester
  | OpPaymentIntent requester _ _ _ => Some requester
  | OpGetCart _ requester => Some requester
  | OpAddToCart _ requester _ _ => Some requester
  | OpUpdateCartItem _ requester _ _ => Some requester
  | OpRemoveFromCart _ requester _ => Some requester
  | OpClearCart _ requester => Some requester
  | OpValidateCart _ requester => Some requester
  | OpUpdateOrderStatus _ _ _ _ => None
  | OpPaymentSucceeded _ _ => None
  | OpPaymentFailed _ _ => None
  | OpSetPrice _ _ => None
  | OpDeleteProduct _ => None
  | OpUpdateStock _ _ _ => None
  end.

(** The requester, if there is one, is the user [user]. *)
Definition acts_as (who : option User) (user : ObjectId) : Prop :=
  forall u, who = Some u -> user_id u = user.

(** The requester, if there is one, owns the order or is an administrator. *)
Definition may_touch (who : option User) (o : Order.t) : Prop :=
  forall u, who = Some u -> Order.user o = user_id u \/ user_role u = role_admin.

(** The ways in which a request served for [who] changes the store.  The
    index is the body of the order creation that the request performed, if
    any. *)
Inductive effect (who : option User) (s : Store)
    : option OrderRequest.t -> Store -> Prop :=
| eff_none ob : effect who s ob s
| eff_order ob id o o' :
    orders s !! id = Some o -> doc_step o o' -> may_touch who o ->
    effect who s ob (set_orders (<[id := o']> (orders s)) s)
| eff_cancel ob id o o' now reason :
    orders s !! id = Some o -> Order_cancelOrder now reason o = Ok o' ->
    may_touch who o ->
    effect who s ob
      (set_products
         (apply_incs OrderItem.product OrderItem.quantity (Order.items o') (products s))
         (set_orders (<[id := o']> (orders s)) s))
| eff_create now user body o :
    acts_as who user ->
    validateOrderCreation body = [] ->
    Forall (item_available (products s)) (OrderRequest.items body) ->
    order_wf o ->
    priced o ->
    Order.user o = user ->
    effect who s (Some body)
      (mkStore
         (apply_incs OrderRequest.product (fun item => (- OrderRequest.quantity item)%Z)
            (OrderRequest.items body) (products s))
         (carts_after_clear now user (carts s))
         (orders s ++ [o]))
| eff_cart ob user c' :
    acts_as who user ->
    totals_ok c' ->
    (lines_ok (old_lines (carts s) user) -> lines_ok (Cart.items c')) ->
    effect who s ob (set_carts (<[user := c']> (carts s)) s)
| eff_product ob id p p' :
    who = None ->
    products s !! id = Some p ->
    ((0 <= Product.stock p)%Z -> (0 <= Product.stock p')%Z) ->
    effect who s ob (set_products (<[id := p']> (products s)) s).

(** ** How a request is answered *)

(** What the modelled handlers do: they answer with an error and leave the
    store as it was, or they answer and have one of the effects. *)
Definition outcome_ok {A} (who : option User) (s : Store)
    (ob : option OrderRequest.t) (r : Result A * Store) : Prop :=
  match r with
  | (Err _, s') => s' = s
  | (Ok _, s') => effect who s ob s'
  end.



(** [existingItem.quantity += quantity; existingItem.price = price] *)
Definition merge_line (price : Q) (q : Z) (item : CartItem.t) : CartItem.t :=
  CartItem.set_price price (CartItem.set_quantity (CartItem.quantity item + q)%Z item).

(** ** Bookkeeping for the cart and the catalog *)

(** What the shop shows of a product apart from its stock. *)
Definition listing (p : Product.t) : string * Q * bool :=
  (Product.name p, Product.price p, Product.isActive p).

(** A cart line that can be ordered as it stands: its product is on sale,
    the stock covers its quantity, and its price is the catalog's. *)
Definition line_orderable (ps : gmap string Product.t) (item : CartItem.t) : Prop :=
  exists p, ps !! CartItem.product item = Some p /\
            Product.isActive p = true /\
            (CartItem.quantity item <= Product.stock p)%Z /\
            (CartItem.price item == Product.price p)%Q.




(** * Scenarios

    Concrete documents and stores on which the operations are run. *)

Module Scenario.
Definition alice : User := {| user_id := "64a000000000000000000001"; user_role := role_user |}.

Definition P1 : ObjectId := "64b000000000000000000001".
Definition P2 : ObjectId := "64b000000000000000000002".

Definition product (price : Q) (stock : Z) (active : bool) : Product.t :=
  Product.mk "Widget" price stock active.

Definition payment (st : PaymentStatus) : PaymentInfo.t :=
  PaymentInfo.mk stripe None (Some "pi_1") st 160 "INR" None None 0.

(** Scenario A of the specification: two units of P1 at 50.00. *)
Definition order (st : OrderStatus) (pst : PaymentStatus) : Order.t :=
  Order.mk (user_id alice) [OrderItem.mk P1 "Widget" 2 50 100]
    100 10 50 0 160 st (payment pst) (Some 604800000%Z) None None None
    [HistoryEntry.mk pending 0 "Order created"].

Definition store_with (o : Order.t) : Store :=
  mkStore {[ P1 := product 50 8 true ]} ∅ [o].

(** A catalog: P1 at 50.00 with 8 in stock, P2 at 99.99 with 3 in stock,
    P3 withdrawn from sale, P4 with 500 in stock. *)
Definition P3 : ObjectId := "64b000000000000000000003".
Definition P4 : ObjectId := "64b000000000000000000004".

Definition catalog : gmap string Product.t :=
  {[ P1 := Product.mk "Widget" 50 8 true;
     P2 := Product.mk "Gadget" (9999 # 100) 3 true;
     P3 := Product.mk "Relic" 10 5 false;
     P4 := Product.mk "Bolt" (1 # 4) 500 true ]}.

(** Alice's cart: two units of P1, added when P1 cost 45.00. *)
Definition alice_cart : Cart.t :=
  Cart.mk [CartItem.mk P1 2 45] 90 2 0 true.

(** Bob's cart: sixty units of P4. *)
Definition bob : User := {| user_id := "64a000000000000000000002"; user_role := role_user |}.

Definition bob_cart : Cart.t :=
  Cart.mk [CartItem.mk P4 60 (1 # 4)] 15 60 0 true.

(** Carol's cart: one unit of the withdrawn P3 and two units of P1 at the
    old price; Dave has no cart. *)
Definition carol : User := {| user_id := "64a000000000000000000003"; user_role := role_user |}.
Definition dave : User := {| user_id := "64a000000000000000000004"; user_role := role_user |}.

Definition carol_cart : Cart.t :=
  Cart.mk [CartItem.mk P3 1 10; CartItem.mk P1 2 45] 100 3 0 true.

Definition shop : Store :=
  mkStore catalog
    {[ user_id alice := alice_cart; user_id bob := bob_cart;
       user_id carol := carol_cart ]} [].

Definition intent : PaymentIntent := mkIntent "pi_1" 1700000000.

Definition request (lines : list (ObjectId * Z)) : OrderRequest.t :=
  OrderRequest.mk (map (fun l => OrderRequest.mk_item (fst l) (snd l)) lines)
                  stripe "".
End Scenario.

(** ** A day of requests

    Dave fills a cart; Alice orders two widgets and a gadget, pays, and
    cancels after the order went into processing; the shop takes two widgets
    off the shelf and withdraws the gadget; Carol reads her cart. *)
Module Journey.
Definition body : OrderRequest.t :=
  Scenario.request [(Scenario.P1, 2%Z); (Scenario.P2, 1%Z)].

Definition pi_9 : PaymentIntent := mkIntent "pi_9" 1700000100.

(** Requests of customers only; Bob tries to cancel Alice's order. *)
Definition customers : list Op :=
  [ OpAddToCart 1 Scenario.dave Scenario.P4 (Some 3%Z);
    OpCreateOrder 2 Scenario.alice body;
    OpPaymentIntent Scenario.alice 0 (269989 # 1000) "pi_9";
    OpUpdateCartItem 3 Scenario.bob Scenario.P4 (Some 10%Z);
    OpCancelOrder 4 Scenario.bob 0 "not mine";
    OpRemoveFromCart 5 Scenario.dave Scenario.P4;
    OpCancelOrder 6 Scenario.alice 0 "changed my mind" ].

(** The day, with the requests of the gateway and of the administration. *)
Definition day : list Op :=
  [ OpAddToCart 1 Scenario.dave Scenario.P4 (Some 3%Z);
    OpCreateOrder 2 Scenario.alice body;
    OpPaymentIntent Scenario.alice 0 (269989 # 1000) "pi_9";
    OpPaymentSucceeded 3 pi_9;
    OpUpdateOrderStatus 4 0 processing "";
    OpCancelOrder 5 Scenario.alice 0 "changed my mind";
    OpUpdateStock Scenario.P1 2 "decrease";
    OpDeleteProduct Scenario.P2;
    OpGetCart 6 Scenario.carol;
    OpValidateCart 7 Scenario.bob;
    OpClearCart 8 Scenario.dave ].

(** A store that holds Alice's order of scenario A, not yet paid. *)
Definition open_order : Order.t := Scenario.order pending pay_pending.
Definition with_order : Store := Scenario.store_with open_order.

(** What happens to that order next: it is paid and shipped, a failure
    event arrives late, it is delivered, and Alice tries to cancel it. *)
Definition follow_up : list Op :=
  [ OpPaymentSucceeded 3 Scenario.intent;
    OpUpdateOrderStatus 4 0 shipped "";
    OpPaymentFailed 5 Scenario.intent;
    OpUpdateOrderStatus 6 0 delivered "left at the door";
    OpCancelOrder 7 Scenario.alice 0 "too late" ].
End Journey.

(** * Properties *)

(** ** The controller monad *)

Lemma bind_ok {A B} (m : M A) (k : A -> M B) s a s' :
  m s = (Ok a, s') -> bind m k s = k a s'.
Proof. intros H. unfold bind. now rewrite H. Qed.

Lemma bind_err {A B} (m : M A) (k : A -> M B) s e s' :
  m s = (Err e, s') -> bind m k s = (Err e, s').
Proof. intros H. unfold bind. now rewrite H. Qed.

(** ** Order status machine *)

Lemma updateStatus_status now t note o :
  Order.status (updateStatus now t note o) = t.
Proof.
  unfold updateStatus.
  destruct (decide (Order.status o = t)) as [->|Hne]; [reflexivity|].
  destruct (decide (t = delivered)); [reflexivity|].
  destruct (decide (t = cancelled)); reflexivity.
Qed.

Lemma updateStatus_same now note o :
  updateStatus now (Order.status o) note o = o.
Proof. unfold updateStatus. now rewrite decide_True. Qed.

Lemma updateStatus_history now t note o :
  Order.status o <> t ->
  Order.statusHistory (updateStatus now t note o) =
  (Order.statusHistory o ++
   [HistoryEntry.mk t now
      (or_default note ("Status changed from " ++ status_name (Order.status o) ++
                        " to " ++ status_name t))])%list.
Proof.
  intros Hne. unfold updateStatus. rewrite decide_False by assumption.
  destruct (decide (t = delivered)); [reflexivity|].
  destruct (decide (t = cancelled)); reflexivity.
Qed.

Lemma updateOrderStatus_forbidden now id t note s o :
  orders s !! id = Some o ->
  transition_forbidden (Order.status o) t = true ->
  updateOrderStatus now id t note s =
  (Err (ValidationError ("Cannot change status from " ++ status_name (Order.status o) ++
                         " to " ++ status_name t)), s).
Proof.
  intros Hlook Hforb. unfold updateOrderStatus, Order_findById, gets, bind, throw.
  now rewrite Hlook, Hforb.
Qed.

Lemma updateOrderStatus_allowed now id t note s o :
  orders s !! id = Some o ->
  transition_forbidden (Order.status o) t = false ->
  updateOrderStatus now id t note s =
  (Ok (updateStatus now t note o),
   set_orders (<[id := updateStatus now t note o]> (orders s)) s).
Proof.
  intros Hlook Hforb. unfold updateOrderStatus, Order_findById, gets, bind, throw.
  now rewrite Hlook, Hforb.
Qed.

Lemma updateOrderStatus_ok_inv now id t note s o' s' :
  updateOrderStatus now id t note s = (Ok o', s') ->
  orders s' !! id = Some o' /\ Order.status o' = t.
Proof.
  unfold updateOrderStatus, Order_findById, gets, bind, throw.
  destruct (orders s !! id) as [o|] eqn:Hlook; [|discriminate].
  destruct (transition_forbidden (Order.status o) t); [discriminate|].
  cbn. intros [= <- <-]. split; [|apply updateStatus_status].
  cbn. apply list_lookup_insert_eq. eapply lookup_lt_Some; eassumption.
Qed.

(** C6.  A status change along a forbidden transition (delivered to
    pending/confirmed/processing, cancelled to shipped/delivered, refunded to
    pending/confirmed/processing) is refused by [updateOrderStatus] with the
    validation error that names both states, and the store, hence the
    order's status and status history, stays as it was.  In particular, once
    a request has set the status to delivered, a request for pending is
    refused and the stored status is still delivered. *)
Theorem forbidden_transition_rejected :
  (forall now id note s o from to,
     orders s !! id = Some o ->
     Order.status o = from ->
     (from, to) ∈ [(delivered, pending); (delivered, confirmed); (delivered, processing);
                   (cancelled, shipped); (cancelled, delivered);
                   (refunded, pending); (refunded, confirmed); (refunded, processing)] ->
     updateOrderStatus now id to note s =
     (Err (ValidationError ("Cannot change status from " ++ status_name from ++
                            " to " ++ status_name to)), s)) /\
  (forall now now' id note note' s o1 s1,
     updateOrderStatus now id delivered note s = (Ok o1, s1) ->
     updateOrderStatus now' id pending note' s1 =
     (Err (ValidationError "Cannot change status from delivered to pending"), s1) /\
     Order.status <$> orders s1 !! id = Some delivered).
Proof.
  split.
  - intros now id note s o from to Hlook <- Hin.
    apply updateOrderStatus_forbidden; [assumption|].
    set_unfold in Hin.
    repeat (destruct Hin as [[= -> ->]|Hin]; [reflexivity|]).
    destruct Hin.
  - intros now now' id note note' s o1 s1 Hok.
    apply updateOrderStatus_ok_inv in Hok as [Hlook Hst].
    split.
    + rewrite (updateOrderStatus_forbidden _ _ _ _ _ _ Hlook); rewrite Hst; reflexivity.
    + rewrite Hlook. cbn. now rewrite Hst.
Qed.

Lemma forbidden_transition_rejected_witness :
  updateOrderStatus 1000 0 confirmed ""
    (Scenario.store_with (Scenario.order refunded pay_refunded)) =
  (Err (ValidationError "Cannot change status from refunded to confirmed"),
   Scenario.store_with (Scenario.order refunded pay_refunded)) /\
  (updateOrderStatus 2000 0 pending ""
     (snd (updateOrderStatus 1000 0 delivered ""
             (Scenario.store_with (Scenario.order shipped pay_completed)))) =
   (Err (ValidationError "Cannot change status from delivered to pending"),
    snd (updateOrderStatus 1000 0 delivered ""
           (Scenario.store_with (Scenario.order shipped pay_completed)))) /\
   Order.status <$>
     orders (snd (updateOrderStatus 1000 0 delivered ""
                    (Scenario.store_with (Scenario.order shipped pay_completed)))) !! 0%nat
   = Some delivered).
Proof.
  split.
  - apply (proj1 forbidden_transition_rejected 1000%Z 0%nat ""
             (Scenario.store_with (Scenario.order refunded pay_refunded))
             (Scenario.order refunded pay_refunded) refunded confirmed).
    + reflexivity.
    + reflexivity.
    + compute_done.
  - apply (proj2 forbidden_transition_rejected 1000%Z 2000%Z 0%nat "" ""
             (Scenario.store_with (Scenario.order shipped pay_completed))
             (updateStatus 1000 delivered "" (Scenario.order shipped pay_completed))).
    reflexivity.
Defined.




(** ** Stock counters *)

Lemma set_products_id s : set_products (products s) s = s.
Proof. now destruct s. Qed.

Lemma inc_stock_0 p : Product.inc_stock 0 p = p.
Proof. destruct p. unfold Product.inc_stock. cbn. now rewrite Z.add_0_r. Qed.

Lemma inc_stock_inc_stock a b p :
  Product.inc_stock b (Product.inc_stock a p) = Product.inc_stock (a + b) p.
Proof. destruct p. unfold Product.inc_stock. cbn. f_equal. lia. Qed.

Section StockLoop.
Context {A : Type} (key : A -> ObjectId) (qty : A -> Z).

Lemma for_each_incStock l s :
  for_each (fun x => Product_incStock (key x) (qty x)) l s =
  (Ok tt, set_products (apply_incs key qty l (products s)) s).
Proof.
  revert s. induction l as [|x l IH]; intros s; cbn.
  - unfold ret. now rewrite set_products_id.
  - unfold bind, Product_incStock, modify. rewrite IH. now destruct s.
Qed.

Lemma lookup_apply_incs l ps pid :
  apply_incs key qty l ps !! pid =
  Product.inc_stock (quantity_of key qty pid l) <$> ps !! pid.
Proof.
  revert ps. induction l as [|x l IH]; intros ps; cbn.
  - destruct (ps !! pid) as [p|]; cbn; [|reflexivity]. now rewrite inc_stock_0.
  - unfold apply_incs in IH. rewrite IH, lookup_alter.
    destruct (decide (key x = pid)) as [->|Hne].
    + destruct (ps !! pid) as [p|]; cbn; [|reflexivity].
      now rewrite inc_stock_inc_stock.
    + now rewrite Z.add_0_l.
Qed.
End StockLoop.

(** ** Cancellation *)


Lemma Order_cancelOrder_refused now reason o :
  Order.status o ∈ model_nonCancellable ->
  Order_cancelOrder now reason o =
  Err (PlainError ("Cannot cancel order with status: " ++ status_name (Order.status o))).
Proof.
  intros Hst. unfold Order_cancelOrder. now rewrite bool_decide_eq_true_2.
Qed.



(** ** Payment reconciliation *)

Lemma updateStatus_paymentInfo now t note o :
  Order.paymentInfo (updateStatus now t note o) = Order.paymentInfo o.
Proof.
  unfold updateStatus.
  destruct (decide (Order.status o = t)); [reflexivity|].
  destruct (decide (t = delivered)); [reflexivity|].
  destruct (decide (t = cancelled)); reflexivity.
Qed.

Lemma updatePaymentStatus_completed now tid t o :
  let o1 := updatePaymentStatus now pay_completed tid (Some t) o in
  PaymentInfo.status (Order.paymentInfo o1) = pay_completed /\
  PaymentInfo.paymentIntentId (Order.paymentInfo o1) =
    PaymentInfo.paymentIntentId (Order.paymentInfo o) /\
  PaymentInfo.paidAt (Order.paymentInfo o1) =
    Some (default t (PaymentInfo.paidAt (Order.paymentInfo o))) /\
  (Order.status o = pending -> PaymentInfo.paidAt (Order.paymentInfo o) = None ->
   Order.status o1 = confirmed /\
   Order.statusHistory o1 =
     (Order.statusHistory o ++
      [HistoryEntry.mk confirmed now "Payment completed"])%list) /\
  (Order.status o <> pending \/ PaymentInfo.paidAt (Order.paymentInfo o) <> None ->
   Order.status o1 = Order.status o /\
   Order.statusHistory o1 = Order.statusHistory o).
Proof.
  destruct o as [u its sub tx sh di tot st [m tr pi pst am cu pa ra rf] ed da ca cr hist].
  unfold updatePaymentStatus. cbn.
  destruct (truthy tid); cbn; destruct pa as [t0|]; cbn.
  1,3: split_and!; try reflexivity; [congruence | tauto].
  all: destruct (decide (st = pending)) as [->|Hp]; cbn.
  1,3: split_and!; try reflexivity; [tauto | intros [Hn|Hn]; congruence].
  all: split_and!; try reflexivity; [congruence | tauto].
Qed.

(** The same completion applied twice to a document, as the confirmation
    endpoints do without looking at the payment status first. *)
Lemma updatePaymentStatus_completed_twice now1 now2 tid t1 t2 o :
  updatePaymentStatus now2 pay_completed tid (Some t2)
    (updatePaymentStatus now1 pay_completed tid (Some t1) o) =
  updatePaymentStatus now1 pay_completed tid (Some t1) o.
Proof.
  destruct o as [u its sub tx sh di tot st [m tr pi pst am cu pa ra rf] ed da ca cr hist].
  unfold updatePaymentStatus. cbn.
  destruct (truthy tid); cbn; destruct pa as [t0|]; cbn; try reflexivity.
  all: destruct (decide (st = pending)) as [->|Hp]; cbn; reflexivity.
Qed.


Lemma handleStripePaymentSuccess_run now paymentIntent s :
  handleStripePaymentSuccess now paymentIntent s =
  (Ok tt,
   match list_find (has_intent (intent_id paymentIntent)) (orders s) with
   | Some (id, o) =>
       if decide (PaymentInfo.status (Order.paymentInfo o) = pay_completed) then s
       else set_orders
              (<[id := updatePaymentStatus now pay_completed
                         (Some (intent_id paymentIntent))
                         (Some (created paymentIntent * 1000)%Z) o]> (orders s)) s
   | None => s
   end).
Proof.
  unfold handleStripePaymentSuccess, Order_findOneByIntent, gets, bind.
  destruct (list_find _ _) as [[id o]|]; [|reflexivity].
  destruct (decide (PaymentInfo.status (Order.paymentInfo o) = pay_completed)).
  - rewrite bool_decide_eq_false_2; [reflexivity|]. intros Hn. now apply Hn.
  - now rewrite bool_decide_eq_true_2.
Qed.


(** ** Order creation *)

Lemma check_item_cases acc item s :
  (item_available (products s) item /\
   exists line, is_line (products s) item line /\
     check_item acc item s =
     (Ok ((fst acc + OrderItem.total line)%Q, (snd acc ++ [line])%list), s)) \/
  (~ item_available (products s) item /\
   exists e, item_refused (products s) item e /\
     check_item acc item s = (Err e, s)).
Proof.
  destruct acc as [subtotal orderItems].
  unfold check_item, Product_findById, gets, bind, throw, ret.
  destruct (products s !! OrderRequest.product item) as [p|] eqn:Hlook.
  - destruct (Product.isActive p) eqn:Hact; cbn.
    + destruct (Z.ltb_spec (Product.stock p) (OrderRequest.quantity item)) as [Hlt|Hge].
      * right. split.
        -- intros (p' & Hp' & _ & Hle). rewrite Hlook in Hp'.
           injection Hp' as <-. lia.
        -- eexists. split; [|reflexivity]. right. right. exists p. now split_and!.
      * left. split.
        -- exists p. now split_and!.
        -- exists (OrderItem.mk (OrderRequest.product item) (Product.name p)
                     (OrderRequest.quantity item) (Product.price p)
                     (Product.price p * inject_Z (OrderRequest.quantity item))%Q).
           split; [now exists p|reflexivity].
    + right. split.
      * intros (p' & Hp' & Hact' & _). rewrite Hlook in Hp'.
        injection Hp' as <-. congruence.
      * eexists. split; [|reflexivity]. right. left. exists p. now split_and!.
  - right. split.
    + intros (p' & Hp' & _). rewrite Hlook in Hp'. discriminate.
    + eexists. split; [|reflexivity]. left. now split.
Qed.

Lemma fold_check_ok items : forall acc s,
  Forall (item_available (products s)) items ->
  exists lines,
    Forall2 (is_line (products s)) items lines /\
    fold_m check_item items acc s =
    (Ok (sum_totals lines (fst acc), (snd acc ++ lines)%list), s).
Proof.
  induction items as [|item items IH]; intros acc s Hall.
  - exists []. split; [constructor|]. cbn. unfold ret.
    destruct acc. cbn. now rewrite app_nil_r.
  - inversion Hall as [|? ? Hitem Hrest]; subst.
    destruct (check_item_cases acc item s) as [(_ & line & Hline & Hrun)|(Hno & _)];
      [|contradiction].
    destruct (IH ((fst acc + OrderItem.total line)%Q, (snd acc ++ [line])%list) s Hrest)
      as (lines & Hlines & Hfold).
    exists (line :: lines). split; [now constructor|].
    cbn [fold_m]. rewrite (bind_ok _ _ _ _ _ Hrun). rewrite Hfold. cbn.
    now rewrite <- app_assoc.
Qed.

Lemma fold_check_err items : forall acc s,
  ~ Forall (item_available (products s)) items ->
  exists before item after e,
    items = (before ++ item :: after)%list /\
    Forall (item_available (products s)) before /\
    item_refused (products s) item e /\
    fold_m check_item items acc s = (Err e, s).
Proof.
  induction items as [|item items IH]; intros acc s Hnot.
  - exfalso. apply Hnot. constructor.
  - destruct (check_item_cases acc item s)
      as [(Hav & line & _ & Hrun)|(_ & e & Hrefused & Hrun)].
    + destruct (IH ((fst acc + OrderItem.total line)%Q, (snd acc ++ [line])%list) s)
        as (before & bad & after & e & -> & Hbefore & Hrefused & Hfold).
      { intros Hrest. apply Hnot. now constructor. }
      exists (item :: before), bad, after, e. split_and!; try done.
      * now constructor.
      * cbn [fold_m]. now rewrite (bind_ok _ _ _ _ _ Hrun).
    + exists [], item, items, e. split_and!; try done.
      cbn [fold_m]. now rewrite (bind_err _ _ _ _ _ Hrun).
Qed.

Lemma createOrder_refused now requester body s :
  ~ Forall (item_available (products s)) (OrderRequest.items body) ->
  exists before item after e,
    OrderRequest.items body = (before ++ item :: after)%list /\
    Forall (item_available (products s)) before /\
    item_refused (products s) item e /\
    createOrder now requester body s = (Err e, s).
Proof.
  intros Hnot.
  destruct (fold_check_err _ (0%Q, []) s Hnot)
    as (before & item & after & e & Hsplit & Hbefore & Hrefused & Hfold).
  exists before, item, after, e. split_and!; try done.
  unfold createOrder. destruct (OrderRequest.items body) as [|i0 rest] eqn:Hitems.
  - now destruct before.
  - now rewrite (bind_err _ _ _ _ _ Hfold).
Qed.

Lemma Order_create_run now user lines subtotal tax shippingCost discount
    totalAmount method currency s :
  Order_create now user lines subtotal tax shippingCost discount totalAmount
    method currency s =
  (Ok (length (orders s)),
   set_orders
     (orders s ++
      [Order.mk user lines subtotal tax shippingCost discount totalAmount pending
         (PaymentInfo.mk method None None pay_pending totalAmount currency
            None None 0%Q)
         (Some (now + 7 * 24 * 60 * 60 * 1000)%Z) None None None
         [HistoryEntry.mk pending now "Order created"]]) s).
Proof. reflexivity. Qed.

Lemma clear_cart_step {B} now user (k : M B) s :
  bind (Cart_findByUser user)
       (fun cart =>
          bind match cart with
               | Some c => bind (Cart_clearCart now user c) (fun _ => ret tt)
               | None => ret tt
               end
               (fun _ => k)) s =
  k (set_carts (carts_after_clear now user (carts s)) s).
Proof.
  unfold Cart_findByUser, gets, carts_after_clear. unfold bind at 1.
  destruct s as [ps cs os]. cbn [carts].
  destruct (cs !! user) as [c|]; [|reflexivity].
  destruct (Cart.isActive c) eqn:Hact; [|reflexivity].
  unfold Cart_clearCart, Cart_save, modify, bind, ret.
  cbn -[round2]. now rewrite Hact.
Qed.

Lemma createOrder_created now requester body s :
  OrderRequest.items body <> [] ->
  Forall (item_available (products s)) (OrderRequest.items body) ->
  exists lines,
    Forall2 (is_line (products s)) (OrderRequest.items body) lines /\
    let subtotal := sum_totals lines 0 in
    let tax := (subtotal * (1 # 10))%Q in
    let shippingCost := if Qgtb subtotal 500 then 0%Q else 50%Q in
    let totalAmount := (subtotal + tax + shippingCost - 0)%Q in
    let o :=
      Order.mk (user_id requester) lines subtotal tax shippingCost 0 totalAmount
        pending
        (PaymentInfo.mk (OrderRequest.method body) None None pay_pending
           totalAmount (or_default (OrderRequest.currency body) "INR")
           None None 0%Q)
        (Some (now + 7 * 24 * 60 * 60 * 1000)%Z) None None None
        [HistoryEntry.mk pending now "Order created"] in
    createOrder now requester body s =
    (Ok (Some o),
     mkStore
       (apply_incs OrderRequest.product (fun item => (- OrderRequest.quantity item)%Z)
          (OrderRequest.items body) (products s))
       (carts_after_clear now (user_id requester) (carts s))
       (orders s ++ [o])).
Proof.
  intros Hne Hall.
  destruct (fold_check_ok _ (0%Q, []) s Hall) as (lines & Hlines & Hfold).
  exists lines. split; [assumption|]. cbn zeta.
  unfold createOrder. destruct (OrderRequest.items body) as [|i0 rest] eqn:Hitems;
    [contradiction|].
  rewrite (bind_ok _ _ _ _ _ Hfold). cbn [fst snd app].
  rewrite (bind_ok _ _ _ _ _ (Order_create_run _ _ _ _ _ _ _ _ _ _ _)).
  rewrite (bind_ok _ _ _ _ _ (for_each_incStock _ _ _ _)).
  rewrite clear_cart_step.
  unfold Order_findById, gets. destruct s as [ps cs os].
  cbn [orders products carts set_orders set_products set_carts].
  now rewrite list_lookup_middle.
Qed.

Lemma createOrder_ok_inv now requester body s r s' :
  createOrder now requester body s = (Ok r, s') ->
  OrderRequest.items body <> [] /\
  Forall (item_available (products s)) (OrderRequest.items body).
Proof.
  intros Hrun. split.
  - intros Hnil. unfold createOrder in Hrun. rewrite Hnil in Hrun. discriminate.
  - destruct (decide (Forall (item_available (products s)) (OrderRequest.items body)))
      as [Hall|Hnot]; [assumption|].
    destruct (createOrder_refused now requester body s Hnot)
      as (? & ? & ? & e & _ & _ & _ & Herr).
    rewrite Herr in Hrun. discriminate.
Qed.






(** ** Order lines and the cart *)






(** ** Adding to the cart *)



Lemma Cart_findOrCreateCart_found now user s c :
  carts s !! user = Some c ->
  Cart.isActive c = true ->
  Cart_findOrCreateCart now user s = (Ok c, s).
Proof.
  intros Hc Hact. unfold Cart_findOrCreateCart, Cart_findByUser, gets, bind, ret.
  now rewrite Hc, Hact.
Qed.

Lemma Product_findById_run id s :
  Product_findById id s = (Ok (products s !! id), s).
Proof. reflexivity. Qed.



(** ** Reading the cart *)

Lemma validate_item_invalid ps item :
  item_invalid ps item ->
  exists e, validate_item ps item = (Some e, item) /\
            productId e = CartItem.product item.
Proof.
  unfold item_invalid, validate_item.
  destruct (ps !! CartItem.product item) as [p|].
  - destruct (Product.isActive p) eqn:Hact; cbn.
    + intros [Hf|Hlt]; [discriminate|].
      destruct (Z.ltb_spec (Product.stock p) (CartItem.quantity item)); [|lia].
      eexists. split; reflexivity.
    + intros _. eexists. split; reflexivity.
  - intros _. eexists. split; reflexivity.
Qed.

Lemma validate_item_problem ps item e item' :
  validate_item ps item = (Some e, item') ->
  item' = item /\ productId e = CartItem.product item /\ item_invalid ps item.
Proof.
  unfold item_invalid, validate_item.
  destruct (ps !! CartItem.product item) as [p|].
  - destruct (Product.isActive p) eqn:Hact; cbn.
    + destruct (Z.ltb_spec (Product.stock p) (CartItem.quantity item)).
      * intros [= <- <-]. split_and!; try reflexivity. now right.
      * destruct (Qeq_bool _ _); discriminate.
    + intros [= <- <-]. split_and!; try reflexivity. now left.
  - intros [= <- <-]. now split_and!.
Qed.


Lemma validate_loop_spec ps items :
  validate_loop ps items =
  (omap (fun item => fst (validate_item ps item)) items,
   map (fun item => snd (validate_item ps item)) items).
Proof.
  induction items as [|item items IH]; [reflexivity|].
  cbn [validate_loop]. rewrite IH. cbn [omap list_omap map].
  destruct (validate_item ps item) as [[e|] item']; reflexivity.
Qed.



Lemma Cart_save_run now user c s :
  Cart_save now user c s =
  (Ok (Cart_presave now c),
   set_carts (<[user := Cart_presave now c]> (carts s)) s).
Proof. reflexivity. Qed.

Lemma Cart_findByUser_found user s c :
  carts s !! user = Some c ->
  Cart.isActive c = true ->
  Cart_findByUser user s = (Ok (Some c), s).
Proof. intros Hc Hact. unfold Cart_findByUser, gets. now rewrite Hc, Hact. Qed.

Lemma getCart_pruned now requester s c e errs items' :
  carts s !! user_id requester = Some c ->
  Cart.isActive c = true ->
  validate_loop (products s) (Cart.items c) = (e :: errs, items') ->
  let c3 := Cart_presave now
              (Cart.set_items
                 (List.filter (fun item => negb (has_problem (e :: errs) item)) items')
                 (Cart.set_items items' c)) in
  getCart now requester s =
  (Ok (mkResponse (view c3) (Some (e :: errs))),
   set_carts (<[user_id requester := c3]> (carts s)) s).
Proof.
  intros Hc Hact Hloop. cbn zeta. unfold getCart.
  rewrite (bind_ok _ _ _ _ _ (Cart_findByUser_found _ _ _ Hc Hact)).
  unfold Cart_validateItems, gets. unfold bind at 1 2. rewrite Hloop.
  unfold ret at 1. rewrite (bind_ok _ _ _ _ _ (Cart_save_run _ _ _ _)).
  reflexivity.
Qed.

Lemma getCart_clean now requester s c items' :
  carts s !! user_id requester = Some c ->
  Cart.isActive c = true ->
  validate_loop (products s) (Cart.items c) = ([], items') ->
  let c2 := Cart_presave now (Cart_calculateTotals (Cart.set_items items' c)) in
  getCart now requester s =
  (Ok (mkResponse (view c2) None),
   set_carts (<[user_id requester := c2]> (carts s)) s).
Proof.
  intros Hc Hact Hloop. cbn zeta. unfold getCart.
  rewrite (bind_ok _ _ _ _ _ (Cart_findByUser_found _ _ _ Hc Hact)).
  unfold Cart_validateItems, gets. unfold bind at 1 2. rewrite Hloop.
  rewrite (bind_ok _ _ _ _ _ (Cart_save_run _ _ _ _)).
  reflexivity.
Qed.



(** ** The scenarios of the specification, through the theorems *)




(** ** What order creation does store *)

(** Scenario A of the specification: two units of P1 at 50.00 give subtotal
    100, tax 10, shipping 50 and total 160, and the stock of P1 drops from 8
    to 6. *)
Example scenario_A :
  exists o s',
    post_orders 1000 Scenario.alice (Scenario.request [(Scenario.P1, 2%Z)])
      Scenario.shop = (Ok (Some o), s') /\
    (Order.subtotal o == 100)%Q /\ (Order.tax o == 10)%Q /\
    (Order.shippingCost o == 50)%Q /\ (Order.totalAmount o == 160)%Q /\
    Order.status o = pending /\
    Product.stock <$> products s' !! Scenario.P1 = Some 6%Z /\
    Cart.items <$> carts s' !! user_id Scenario.alice = Some [].
Proof.
  eexists. eexists. split; [vm_compute; reflexivity|].
  split_and!; reflexivity.
Qed.

(** The totals of every created order: the sum of the line totals, ten per
    cent of it, the flat fee unless the subtotal exceeds 500, no discount,
    and their plain sum. *)
Lemma createOrder_totals now requester body s o s' :
  createOrder now requester body s = (Ok (Some o), s') ->
  Order.subtotal o = sum_totals (Order.items o) 0 /\
  Order.tax o = (Order.subtotal o * (1 # 10))%Q /\
  Order.shippingCost o = (if Qgtb (Order.subtotal o) 500 then 0%Q else 50%Q) /\
  Order.discount o = 0%Q /\
  Order.totalAmount o =
    (Order.subtotal o + Order.tax o + Order.shippingCost o - Order.discount o)%Q.
Proof.
  intros Hrun.
  destruct (createOrder_ok_inv _ _ _ _ _ _ Hrun) as [Hne Hall].
  destruct (createOrder_created now requester body s Hne Hall) as (lines & _ & Hrun').
  cbn zeta in Hrun'. rewrite Hrun in Hrun'. injection Hrun' as -> _.
  now split_and!.
Qed.

(** ** Stock stays non-negative when no product is named twice *)

Section QuantityOf.
Context {A : Type} (key : A -> ObjectId) (qty : A -> Z).

Lemma quantity_of_absent pid (l : list A) :
  pid ∉ key <$> l -> quantity_of key qty pid l = 0%Z.
Proof.
  induction l as [|x l IH]; intros Hnot; [reflexivity|].
  cbn in *. rewrite not_elem_of_cons in Hnot. destruct Hnot as [Hne Hnot].
  rewrite decide_False by congruence. now rewrite IH.
Qed.

Lemma quantity_of_NoDup x (l : list A) :
  NoDup (key <$> l) -> x ∈ l -> quantity_of key qty (key x) l = qty x.
Proof.
  induction l as [|y l IH]; intros Hnd Hin; [inversion Hin|].
  cbn in *. apply NoDup_cons in Hnd as [Hy Hnd].
  apply elem_of_cons in Hin as [->|Hin].
  - rewrite decide_True by reflexivity. rewrite quantity_of_absent by assumption. lia.
  - rewrite decide_False.
    + now rewrite IH.
    + intros Heq. apply Hy. rewrite Heq. now apply list_elem_of_fmap_2.
Qed.
End QuantityOf.

Lemma createOrder_distinct_products_stock_nonneg now requester body s r s' :
  NoDup (OrderRequest.product <$> OrderRequest.items body) ->
  (forall pid p, products s !! pid = Some p -> (0 <= Product.stock p)%Z) ->
  createOrder now requester body s = (Ok r, s') ->
  forall pid p', products s' !! pid = Some p' -> (0 <= Product.stock p')%Z.
Proof.
  intros Hnd Hpos Hrun pid p' Hp'.
  destruct (createOrder_ok_inv _ _ _ _ _ _ Hrun) as [Hne Hall].
  destruct (createOrder_created now requester body s Hne Hall) as (lines & _ & Hrun').
  cbn zeta in Hrun'. rewrite Hrun in Hrun'. injection Hrun' as _ ->.
  cbn [products] in Hp'. rewrite lookup_apply_incs in Hp'.
  destruct (products s !! pid) as [p|] eqn:Hp; [|discriminate].
  cbn in Hp'. injection Hp' as <-. cbn.
  destruct (decide (pid ∈ OrderRequest.product <$> OrderRequest.items body))
    as [Hin|Hnot].
  - apply list_elem_of_fmap in Hin as (item & -> & Hitem).
    rewrite (quantity_of_NoDup _ _ item _ Hnd Hitem).
    rewrite Forall_forall in Hall.
    destruct (Hall item Hitem) as (q & Hq & _ & Hle).
    rewrite Hp in Hq. injection Hq as <-. lia.
  - rewrite quantity_of_absent by assumption.
    specialize (Hpos pid p Hp). lia.
Qed.

(** * The workflow as a whole

    Properties of the handlers that the claims leave aside, and of every
    sequence of requests. *)

(** ** Outcomes *)

Ltac quiet := unfold outcome_ok; cbn; first [reflexivity | apply eff_none].

Lemma outcome_effect {A} who s ob (r : Result A * Store) :
  outcome_ok who s ob r -> effect who s ob (snd r).
Proof. destruct r as [[a|e] s']; cbn; [trivial|]. intros ->. constructor. Qed.


Lemma may_touch_None o : may_touch None o.
Proof. intros u Hu. discriminate. Qed.

Lemma acts_as_self u : acts_as (Some u) (user_id u).
Proof. now intros ? [= <-]. Qed.


(** ** Steps of an order document *)

Lemma updateStatus_frozen now t note o : frozen o (updateStatus now t note o).
Proof.
  unfold updateStatus, frozen.
  destruct (decide (Order.status o = t)); [now split_and!|].
  destruct (decide (t = delivered)); [now split_and!|].
  destruct (decide (t = cancelled)); now split_and!.
Qed.

Lemma updateStatus_history_prefix now t note o :
  Order.statusHistory o `prefix_of` Order.statusHistory (updateStatus now t note o).
Proof.
  destruct (decide (Order.status o = t)) as [<-|Hne].
  - now rewrite updateStatus_same.
  - rewrite updateStatus_history by assumption. now apply prefix_app_r.
Qed.

Lemma last_snoc_status (h : list HistoryEntry.t) e :
  HistoryEntry.status <$> last (h ++ [e]) = Some (HistoryEntry.status e).
Proof. now rewrite last_snoc. Qed.

Ltac solve_wf Hr :=
  split_and!; try done; try discriminate;
  try (intros _; split_and!; try done; eexists; reflexivity);
  try (let Hx := fresh in
       intros Hx; destruct (Hr Hx) as (? & ? & ?); split_and!; try done;
       eexists; reflexivity).

Lemma updateStatus_wf now t note o : order_wf o -> order_wf (updateStatus now t note o).
Proof.
  intros (Hh & Hc & Hd & Hp & Hr & Hq).
  destruct (decide (Order.status o = t)) as [<-|Hne].
  { rewrite updateStatus_same. now split_and!. }
  unfold order_wf. rewrite updateStatus_history, updateStatus_status by assumption.
  rewrite last_snoc_status. cbn [HistoryEntry.status].
  unfold updateStatus. rewrite decide_False by assumption.
  destruct (decide (t = delivered)) as [->|Hnd];
    [|destruct (decide (t = cancelled)) as [->|Hnc]]; cbn; solve_wf Hr.
Qed.

Lemma cancel_frozen now reason o o' :
  Order_cancelOrder now reason o = Ok o' -> frozen o o'.
Proof.
  unfold Order_cancelOrder.
  destruct (bool_decide _); [discriminate|]. cbn.
  destruct (decide _); intros [= <-]; unfold frozen; now split_and!.
Qed.

Lemma cancel_history_prefix now reason o o' :
  Order_cancelOrder now reason o = Ok o' ->
  Order.statusHistory o `prefix_of` Order.statusHistory o'.
Proof.
  unfold Order_cancelOrder.
  destruct (bool_decide _); [discriminate|]. cbn.
  destruct (decide _); intros [= <-]; cbn; now apply prefix_app_r.
Qed.

Lemma cancel_wf now reason o o' :
  Order_cancelOrder now reason o = Ok o' -> order_wf o -> order_wf o'.
Proof.
  unfold Order_cancelOrder, order_wf.
  destruct (bool_decide _); [discriminate|]. cbn.
  intros Hrun (Hh & Hc & Hd & Hp & Hr & Hq).
  destruct (decide _) as [Hpaid|Hpaid]; injection Hrun as <-; cbn;
    rewrite last_snoc_status; cbn; solve_wf Hr.
Qed.

Lemma updatePaymentStatus_frozen now st tid paid o :
  frozen o (updatePaymentStatus now st tid paid o).
Proof.
  destruct o as [u its sub tx sh di tot os [m tr pi pst am cu pa ra rf] ed da ca cr hist].
  unfold updatePaymentStatus. cbn.
  destruct (truthy tid); cbn; destruct (decide (st = pay_completed)); cbn;
    try (unfold frozen; now split_and!);
    destruct pa; cbn; try (unfold frozen; now split_and!);
    destruct (decide (os = pending)) as [->|]; cbn; unfold frozen; now split_and!.
Qed.

Lemma updatePaymentStatus_history_prefix now st tid paid o :
  Order.statusHistory o `prefix_of`
  Order.statusHistory (updatePaymentStatus now st tid paid o).
Proof.
  destruct o as [u its sub tx sh di tot os [m tr pi pst am cu pa ra rf] ed da ca cr hist].
  unfold updatePaymentStatus. cbn.
  destruct (truthy tid); cbn; destruct (decide (st = pay_completed)); cbn;
    try reflexivity;
    destruct pa; cbn; try reflexivity;
    destruct (decide (os = pending)) as [->|]; cbn; try reflexivity;
    now apply prefix_app_r.
Qed.

Lemma updatePaymentStatus_wf now st tid paid o :
  st = pay_completed \/ st = pay_failed ->
  order_wf o -> order_wf (updatePaymentStatus now st tid paid o).
Proof.
  intros Hst Hwf.
  assert (Hdrop : forall p', 
            PaymentInfo.refundedAt p' = PaymentInfo.refundedAt (Order.paymentInfo o) ->
            PaymentInfo.refundAmount p' = PaymentInfo.refundAmount (Order.paymentInfo o) ->
            PaymentInfo.amount p' = PaymentInfo.amount (Order.paymentInfo o) ->
            (PaymentInfo.status p' = pay_completed -> is_Some (PaymentInfo.paidAt p')) ->
            PaymentInfo.status p' <> pay_refunded ->
            order_wf (Order.set_paymentInfo p' o)).
  { intros p' _ _ _ Hpaid Hnr. destruct Hwf as (Hh & Hc & Hd & Hp & Hr & Hq).
    unfold order_wf. cbn. split_and!; try done. }
  unfold updatePaymentStatus.
  set (p1 := if truthy tid
             then PaymentInfo.set_transactionId tid
                    (PaymentInfo.set_status st (Order.paymentInfo o))
             else PaymentInfo.set_status st (Order.paymentInfo o)).
  assert (Ho2 : (if truthy tid
                 then Order.set_paymentInfo
                        (PaymentInfo.set_transactionId tid
                           (Order.paymentInfo
                              (Order.set_paymentInfo
                                 (PaymentInfo.set_status st (Order.paymentInfo o)) o)))
                        (Order.set_paymentInfo
                           (PaymentInfo.set_status st (Order.paymentInfo o)) o)
                 else Order.set_paymentInfo
                        (PaymentInfo.set_status st (Order.paymentInfo o)) o)
                = Order.set_paymentInfo p1 o).
  { unfold p1. now destruct (truthy tid). }
  cbn zeta. rewrite Ho2.
  assert (Hp1 : PaymentInfo.status p1 = st /\
                PaymentInfo.paidAt p1 = PaymentInfo.paidAt (Order.paymentInfo o) /\
                PaymentInfo.refundedAt p1 = PaymentInfo.refundedAt (Order.paymentInfo o) /\
                PaymentInfo.refundAmount p1 = PaymentInfo.refundAmount (Order.paymentInfo o) /\
                PaymentInfo.amount p1 = PaymentInfo.amount (Order.paymentInfo o)).
  { unfold p1. now destruct (truthy tid). }
  destruct Hp1 as (Hs1 & Hpa1 & Hra1 & Hrf1 & Ham1).
  destruct (decide (st = pay_completed)) as [->|Hnc].
  - cbn [Order.paymentInfo Order.set_paymentInfo].
    destruct (PaymentInfo.paidAt p1) as [t0|] eqn:Hpaid1.
    + apply Hdrop; try done; try congruence.
    + set (p3 := PaymentInfo.set_paidAt _ p1).
      assert (Hw3 : order_wf (Order.set_paymentInfo p3 (Order.set_paymentInfo p1 o))).
      { change (Order.set_paymentInfo p3 (Order.set_paymentInfo p1 o))
          with (Order.set_paymentInfo p3 o).
        apply Hdrop; try done; try (unfold p3; cbn; congruence). }
      destruct (decide _); [now apply updateStatus_wf|assumption].
  - destruct Hst as [->| ->]; [done|].
    apply Hdrop; try done; congruence.
Qed.

Lemma doc_step_frozen o o' : doc_step o o' -> frozen o o'.
Proof.
  destruct 1 as [now t note o|now reason o o' Hc|now tid paid o|now tid paid o|i o].
  - apply updateStatus_frozen.
  - eapply cancel_frozen; eassumption.
  - apply updatePaymentStatus_frozen.
  - apply updatePaymentStatus_frozen.
  - unfold frozen, record_intent. now split_and!.
Qed.

Lemma doc_step_history o o' :
  doc_step o o' -> Order.statusHistory o `prefix_of` Order.statusHistory o'.
Proof.
  destruct 1 as [now t note o|now reason o o' Hc|now tid paid o|now tid paid o|i o].
  - apply updateStatus_history_prefix.
  - eapply cancel_history_prefix; eassumption.
  - apply updatePaymentStatus_history_prefix.
  - apply updatePaymentStatus_history_prefix.
  - reflexivity.
Qed.

Lemma doc_step_wf o o' : doc_step o o' -> order_wf o -> order_wf o'.
Proof.
  destruct 1 as [now t note o|now reason o o' Hc|now tid paid o|now tid paid o|i o].
  - apply updateStatus_wf.
  - eapply cancel_wf; eassumption.
  - apply updatePaymentStatus_wf. now left.
  - apply updatePaymentStatus_wf. now right.
  - unfold order_wf, record_intent. cbn. tauto.
Qed.


(** ** What each request does to the store *)

Lemma alter_as_insert {A} (f : A -> A) (m : gmap string A) i x :
  m !! i = Some x -> alter f i m = <[i := f x]> m.
Proof.
  intros Hx. apply map_eq. intros j. rewrite lookup_alter, lookup_insert.
  destruct (decide (i = j)) as [->|]; [now rewrite Hx|reflexivity].
Qed.

Lemma updateOrderStatus_effect ob now id t note s :
  outcome_ok None s ob (updateOrderStatus now id t note s).
Proof.
  destruct (orders s !! id) as [o|] eqn:Hlook.
  - destruct (transition_forbidden (Order.status o) t) eqn:Hf.
    + rewrite (updateOrderStatus_forbidden _ _ _ _ _ _ Hlook Hf). quiet.
    + rewrite (updateOrderStatus_allowed _ _ _ _ _ _ Hlook Hf). cbn.
      eapply eff_order; [eassumption|constructor|apply may_touch_None].
  - unfold updateOrderStatus, Order_findById, gets, bind, throw. rewrite Hlook.
    quiet.
Qed.

Lemma cancelOrder_effect ob now requester id reason s :
  outcome_ok (Some requester) s ob (cancelOrder now requester id reason s).
Proof.
  unfold cancelOrder, Order_findById, gets. unfold bind at 1.
  destruct (orders s !! id) as [o|] eqn:Hlook; [|quiet].
  destruct (_ && _) eqn:Hguard; [quiet|].
  destruct (bool_decide (_ ∈ _)); [quiet|].
  destruct (Order_cancelOrder now reason o) as [o'|e] eqn:Hc; [|quiet].
  unfold bind at 1. unfold Order_save, modify. unfold bind.
  rewrite for_each_incStock. cbn.
  eapply eff_cancel; [eassumption..|].
  intros u [= <-]. apply andb_false_iff in Hguard as [Hg|Hg];
    apply bool_decide_eq_false_1 in Hg; [left|right].
  - now destruct (decide (Order.user o = user_id requester)).
  - now destruct (decide (user_role requester = role_admin)).
Qed.

Lemma createStripePaymentIntent_effect ob requester id amount intentId s :
  outcome_ok (Some requester) s ob (createStripePaymentIntent requester id amount intentId s).
Proof.
  unfold createStripePaymentIntent, Order_findById, gets. unfold bind at 1.
  destruct (orders s !! id) as [o|] eqn:Hlook; [|quiet].
  destruct (bool_decide (_ ≠ _)) eqn:Hguard; [quiet|].
  destruct (bool_decide (_ = pay_completed)); [quiet|].
  destruct (negb _); [quiet|].
  cbn. eapply eff_order; [eassumption|constructor|].
  intros u [= <-]. left. apply bool_decide_eq_false_1 in Hguard.
  now destruct (decide (Order.user o = user_id requester)).
Qed.

Lemma handleStripePaymentSuccess_effect ob now paymentIntent s :
  outcome_ok None s ob (handleStripePaymentSuccess now paymentIntent s).
Proof.
  rewrite handleStripePaymentSuccess_run. cbn.
  destruct (list_find _ _) as [[id o]|] eqn:Hfind; [|quiet].
  destruct (decide _); [quiet|].
  apply list_find_Some in Hfind as (Hlook & _).
  eapply eff_order; [eassumption|constructor|apply may_touch_None].
Qed.

Lemma handleStripePaymentFailure_run now paymentIntent s :
  handleStripePaymentFailure now paymentIntent s =
  (Ok tt,
   match list_find (has_intent (intent_id paymentIntent)) (orders s) with
   | Some (id, o) =>
       set_orders (<[id := updatePaymentStatus now pay_failed None None o]> (orders s)) s
   | None => s
   end).
Proof.
  unfold handleStripePaymentFailure, Order_findOneByIntent, gets, bind.
  now destruct (list_find _ _) as [[id o]|].
Qed.

Lemma handleStripePaymentFailure_effect ob now paymentIntent s :
  outcome_ok None s ob (handleStripePaymentFailure now paymentIntent s).
Proof.
  rewrite handleStripePaymentFailure_run. cbn.
  destruct (list_find _ _) as [[id o]|] eqn:Hfind; [|quiet].
  apply list_find_Some in Hfind as (Hlook & _).
  eapply eff_order; [eassumption|constructor|apply may_touch_None].
Qed.

(** *** Order creation *)

Lemma concat_imap_nil {A B} (f : nat -> A -> list B) (l : list A) :
  concat (imap f l) = [] -> forall i x, l !! i = Some x -> f i x = [].
Proof.
  revert f. induction l as [|y l IH]; intros f Hnil i x Hx; [discriminate|].
  cbn in Hnil. apply app_eq_nil in Hnil as [Hy Hrest].
  destruct i as [|i]; cbn in Hx.
  - now injection Hx as <-.
  - apply (IH (f ∘ S) Hrest i x Hx).
Qed.

Lemma validateOrderCreation_ok body :
  validateOrderCreation body = [] ->
  OrderRequest.items body <> [] /\
  Forall (fun item => isMongoId (OrderRequest.product item) = true /\
                      (1 <= OrderRequest.quantity item)%Z)
         (OrderRequest.items body) /\
  OrderRequest.method body ∈ [stripe; razorpay; cod].
Proof.
  unfold validateOrderCreation. intros Hnil.
  apply app_eq_nil in Hnil as [H1 Hnil].
  apply app_eq_nil in Hnil as [H2 Hnil].
  apply app_eq_nil in Hnil as [H3 H4].
  split_and!.
  - intros Hitems. rewrite Hitems in H1. discriminate.
  - apply Forall_lookup. intros i item Hi. split.
    + pose proof (concat_imap_nil _ _ H2 i item Hi) as Hx. cbn in Hx.
      destruct (isMongoId _); [reflexivity|discriminate].
    + pose proof (concat_imap_nil _ _ H3 i item Hi) as Hx. cbn in Hx.
      destruct (Z.leb_spec 1 (OrderRequest.quantity item)); [assumption|discriminate].
  - destruct (bool_decide _) eqn:Hm; [|discriminate].
    now apply bool_decide_eq_true_1 in Hm.
Qed.

Lemma lines_quantities ps items lines :
  Forall2 (is_line ps) items lines ->
  Forall (fun item => (1 <= OrderRequest.quantity item)%Z) items ->
  Forall (fun line => (1 <= OrderItem.quantity line)%Z) lines.
Proof.
  induction 1 as [|item line items lines (p & _ & ->) _ IH]; intros Hq;
    [constructor|].
  inversion Hq; subst. constructor; [assumption|now apply IH].
Qed.

Lemma lines_priced ps items lines :
  Forall2 (is_line ps) items lines ->
  Forall (fun line =>
            (OrderItem.total line ==
             OrderItem.price line * inject_Z (OrderItem.quantity line))%Q) lines.
Proof.
  induction 1 as [|item line items lines (p & _ & ->) _ IH]; constructor;
    [reflexivity|assumption].
Qed.

Lemma post_orders_effect now requester body s :
  outcome_ok (Some requester) s (Some body) (post_orders now requester body s).
Proof.
  unfold post_orders.
  destruct (validateOrderCreation body) as [|err errs] eqn:Hval; [|quiet].
  destruct (validateOrderCreation_ok _ Hval) as (Hne & Hall & _).
  destruct (decide (Forall (item_available (products s)) (OrderRequest.items body)))
    as [Hav|Hnot].
  - destruct (createOrder_created now requester body s Hne Hav) as (lines & Hlines & Hrun).
    cbn zeta in Hrun. rewrite Hrun. cbn [snd].
    eapply eff_create; try eassumption; [apply acts_as_self| | |reflexivity].
    + unfold order_wf. cbn. split_and!; try done.
      eapply lines_quantities; [eassumption|].
      eapply Forall_impl; [exact Hall|]. now intros item [_ Hq].
    + unfold priced. cbn. split_and!; try reflexivity.
      eapply lines_priced; eassumption.
  - destruct (createOrder_refused now requester body s Hnot)
      as (? & ? & ? & e & _ & _ & _ & Hrun).
    rewrite Hrun. quiet.
Qed.


(** *** Carts *)

Lemma totals_ok_presave now c : totals_ok (Cart_presave now c).
Proof. unfold totals_ok, Cart_presave, Cart_calculateTotals. cbn. split; reflexivity. Qed.

Lemma Cart_save_effect who ob now user c s :
  acts_as who user ->
  (lines_ok (old_lines (carts s) user) -> lines_ok (Cart.items c)) ->
  outcome_ok who s ob (Cart_save now user c s).
Proof.
  intros Hwho Hlines. rewrite Cart_save_run. cbn [outcome_ok].
  apply eff_cart; [assumption|apply totals_ok_presave|exact Hlines].
Qed.

Lemma old_lines_found cs user c :
  cs !! user = Some c -> old_lines cs user = Cart.items c.
Proof. intros Hc. unfold old_lines. now rewrite Hc. Qed.

Lemma Cart_findByUser_cases user s :
  (exists c, carts s !! user = Some c /\ Cart.isActive c = true /\
             Cart_findByUser user s = (Ok (Some c), s)) \/
  Cart_findByUser user s = (Ok None, s).
Proof.
  unfold Cart_findByUser, gets.
  destruct (carts s !! user) as [c|] eqn:Hc; [|now right].
  destruct (Cart.isActive c) eqn:Hact; [|now right].
  left. exists c. now split_and!.
Qed.

Lemma map_as_fmap {A B} (f : A -> B) (l : list A) : map f l = f <$> l.
Proof. induction l; cbn; congruence. Qed.

Lemma lines_ok_nil : lines_ok [].
Proof. split; constructor. Qed.

Lemma lines_ok_delete i l : lines_ok l -> lines_ok (delete i l).
Proof.
  intros [Hnd Hq]. split.
  - rewrite list_fmap_delete. eapply sublist_NoDup; [exact Hnd|apply sublist_delete].
  - now apply Forall_delete.
Qed.

Lemma lines_ok_alter (f : CartItem.t -> CartItem.t) i l :
  (forall x, CartItem.product (f x) = CartItem.product x) ->
  (forall x, l !! i = Some x -> (1 <= CartItem.quantity (f x))%Z) ->
  lines_ok l -> lines_ok (alter f i l).
Proof.
  intros Hprod Hqty [Hnd Hq]. split.
  - rewrite (list_fmap_alter CartItem.product f id).
    + now rewrite list_alter_id.
    + apply Forall_forall. intros x _. apply Hprod.
  - apply Forall_alter; [assumption|]. intros x Hx _. now apply Hqty.
Qed.

Lemma lines_ok_snoc l pid q price :
  pid ∉ CartItem.product <$> l -> (1 <= q)%Z ->
  lines_ok l -> lines_ok (l ++ [CartItem.mk pid q price]).
Proof.
  intros Hnew Hq [Hnd Hall]. split.
  - rewrite fmap_app. apply NoDup_app. split_and!; [assumption| |].
    + intros x Hx Hin. cbn in Hin. apply list_elem_of_singleton in Hin as ->.
      contradiction.
    + cbn. apply NoDup_singleton.
  - apply Forall_app. split; [assumption|]. now repeat constructor.
Qed.

Lemma lines_ok_filter (f : CartItem.t -> bool) l :
  lines_ok l -> lines_ok (List.filter f l).
Proof.
  intros [Hnd Hall]. split.
  - induction l as [|x l IH]; cbn; [constructor|].
    cbn in Hnd. apply NoDup_cons in Hnd as [Hx Hnd]. inversion Hall; subst.
    destruct (f x); [|now apply IH].
    cbn. apply NoDup_cons. split; [|now apply IH].
    intros Hin. apply Hx. apply list_elem_of_fmap in Hin as (y & -> & Hy).
    apply list_elem_of_fmap. exists y. split; [reflexivity|].
    apply list_elem_of_In. apply list_elem_of_In, filter_In in Hy. tauto.
  - apply Forall_forall. intros x Hx. rewrite Forall_forall in Hall.
    apply Hall. apply list_elem_of_In. apply list_elem_of_In, filter_In in Hx. tauto.
Qed.

Lemma validate_item_keeps ps item :
  CartItem.product (snd (validate_item ps item)) = CartItem.product item /\
  CartItem.quantity (snd (validate_item ps item)) = CartItem.quantity item.
Proof.
  unfold validate_item.
  destruct (ps !! CartItem.product item) as [p|]; [|now split].
  destruct (negb _); [now split|].
  destruct (_ <? _)%Z; [now split|].
  destruct (Qeq_bool _ _); now split.
Qed.

Lemma lines_ok_refresh ps l :
  lines_ok l -> lines_ok (map (fun item => snd (validate_item ps item)) l).
Proof.
  intros [Hnd Hall]. rewrite map_as_fmap. split.
  - rewrite <- list_fmap_compose.
    erewrite list_fmap_ext; [exact Hnd|].
    intros i x _. cbn. apply validate_item_keeps.
  - apply Forall_fmap. eapply Forall_impl; [exact Hall|].
    intros x Hx. cbn. now rewrite (proj2 (validate_item_keeps ps x)).
Qed.


Lemma find_as_list_find {A} (P : A -> Prop) `{forall x, Decision (P x)} (l : list A) :
  List.find (fun y => bool_decide (P y)) l = snd <$> list_find P l.
Proof.
  induction l as [|y l IH]; [reflexivity|]. cbn.
  destruct (decide (P y)) as [Hy|Hy].
  - now rewrite bool_decide_eq_true_2.
  - rewrite bool_decide_eq_false_2 by assumption. rewrite IH.
    now destruct (list_find P l) as [[j z]|].
Qed.

Lemma Cart_findOrCreateCart_cases now user s :
  (exists e, Cart_findOrCreateCart now user s = (Err e, s)) \/
  (exists c, carts s !! user = Some c /\ Cart.isActive c = true /\
             Cart_findOrCreateCart now user s = (Ok c, s)) \/
  (carts s !! user = None /\
   Cart_findOrCreateCart now user s =
   (Ok (Cart_presave now (Cart.mk [] 0%Q 0%Z now true)),
    set_carts (<[user := Cart_presave now (Cart.mk [] 0%Q 0%Z now true)]> (carts s)) s)).
Proof.
  destruct (carts s !! user) as [c|] eqn:Hc.
  - destruct (Cart.isActive c) eqn:Hact.
    + right. left. exists c. split_and!; try done.
      now apply Cart_findOrCreateCart_found.
    + left. unfold Cart_findOrCreateCart, Cart_findByUser, gets, bind, throw.
      rewrite Hc, Hact. rewrite Hc. eexists. reflexivity.
  - right. right. split; [reflexivity|].
    unfold Cart_findOrCreateCart, Cart_findByUser, gets, bind.
    rewrite Hc. rewrite Hc. reflexivity.
Qed.

Lemma addToCart_cases now requester pid q s :
  (exists e, addToCart now requester pid q s = (Err e, s)) \/
  (exists p c',
     products s !! pid = Some p /\ Product.isActive p = true /\
     (q <= Product.stock p)%Z /\
     addToCart now requester pid q s =
       (Ok (view c'), set_carts (<[user_id requester := c']> (carts s)) s) /\
     totals_ok c' /\
     ((exists i item,
         list_find (fun it => CartItem.product it = pid)
                   (old_lines (carts s) (user_id requester)) = Some (i, item) /\
         (CartItem.quantity item + q <= Product.stock p)%Z /\
         Cart.items c' =
           alter (merge_line (Product.price p) q) i
                 (old_lines (carts s) (user_id requester))) \/
      (list_find (fun it => CartItem.product it = pid)
                 (old_lines (carts s) (user_id requester)) = None /\
       Cart.items c' =
         (old_lines (carts s) (user_id requester) ++
          [CartItem.mk pid q (Product.price p)])%list))).
Proof.
  unfold addToCart.
  rewrite (bind_ok _ _ _ _ _ (Product_findById_run _ _)).
  destruct (products s !! pid) as [p|] eqn:Hp; [|left; eexists; reflexivity].
  destruct (Product.isActive p) eqn:Hact; cbn [negb]; [|left; eexists; reflexivity].
  destruct (Z.ltb_spec (Product.stock p) q) as [Hlt|Hle]; [left; eexists; reflexivity|].
  destruct (Cart_findOrCreateCart_cases now (user_id requester) s)
    as [(e & Herr)|[(c & Hc & Hcact & Hfound)|(Hnone & Hcreated)]].
  - left. exists e. now rewrite (bind_err _ _ _ _ _ Herr).
  - rewrite (bind_ok _ _ _ _ _ Hfound). rewrite find_as_list_find.
    rewrite (old_lines_found _ _ _ Hc).
    destruct (list_find _ (Cart.items c)) as [[i item]|] eqn:Hfind;
      cbn [fmap option_fmap option_map snd].
    + destruct (Z.ltb_spec (Product.stock p) (CartItem.quantity item + q)) as [Hlt|Hle2];
        [left; eexists; reflexivity|].
      right.
      exists p, (Cart_presave now
                   (Cart_calculateTotals
                      (Cart.set_items
                         (alter (merge_line (Product.price p) q) i (Cart.items c)) c))).
      split_and!; [reflexivity|assumption|assumption| |apply totals_ok_presave|].
      * unfold Cart_addItem, findIndex. rewrite Hfind.
        cbn [fmap option_fmap option_map fst].
        now rewrite (bind_ok _ _ _ _ _ (Cart_save_run _ _ _ _)).
      * left. exists i, item. now split_and!.
    + destruct (Z.ltb_spec (Product.stock p) q) as [Hlt|_]; [lia|].
      right.
      exists p, (Cart_presave now
                   (Cart_calculateTotals
                      (Cart.set_items
                         (Cart.items c ++ [CartItem.mk pid q (Product.price p)]) c))).
      split_and!; [reflexivity|assumption|assumption| |apply totals_ok_presave|].
      * unfold Cart_addItem, findIndex. rewrite Hfind.
        cbn [fmap option_fmap option_map fst].
        now rewrite (bind_ok _ _ _ _ _ (Cart_save_run _ _ _ _)).
      * right. now split.
  - rewrite (bind_ok _ _ _ _ _ Hcreated).
    cbn [List.find Cart.items Cart_presave Cart_calculateTotals].
    destruct (Z.ltb_spec (Product.stock p) q) as [Hlt|_]; [lia|].
    right.
    exists p, (Cart_presave now
                 (Cart_calculateTotals
                    (Cart.set_items
                       ([] ++ [CartItem.mk pid q (Product.price p)])
                       (Cart_presave now (Cart.mk [] 0%Q 0%Z now true))))).
    split_and!; [reflexivity|assumption|assumption| |apply totals_ok_presave|].
    + unfold Cart_addItem, findIndex.
      rewrite (bind_ok _ _ _ _ _ (Cart_save_run _ _ _ _)).
      cbn [set_carts carts products orders]. now rewrite insert_insert_eq.
    + right. unfold old_lines. rewrite Hnone. now split.
Qed.


Lemma validateAddToCart_ok pid quantity :
  validateAddToCart pid quantity = [] ->
  isMongoId pid = true /\ (1 <= default 1 quantity <= 99)%Z.
Proof.
  unfold validateAddToCart. intros Hnil.
  apply app_eq_nil in Hnil as [_ Hnil]. apply app_eq_nil in Hnil as [Hid Hq].
  split.
  - destruct (isMongoId pid); [reflexivity|discriminate].
  - destruct quantity as [q|]; cbn; [|lia].
    destruct (Z.leb_spec 1 q), (Z.leb_spec q 99); cbn in Hq; try discriminate. lia.
Qed.

Lemma validateUpdateCartItem_ok pid quantity :
  validateUpdateCartItem pid quantity = [] ->
  isMongoId pid = true /\ exists q, quantity = Some q /\ (1 <= q <= 99)%Z.
Proof.
  unfold validateUpdateCartItem. intros Hnil.
  apply app_eq_nil in Hnil as [_ Hnil]. apply app_eq_nil in Hnil as [Hid Hq].
  split.
  - destruct (isMongoId pid); [reflexivity|discriminate].
  - destruct quantity as [q|]; [|discriminate]. exists q. split; [reflexivity|].
    destruct (Z.leb_spec 1 q), (Z.leb_spec q 99); cbn in Hq; try discriminate. lia.
Qed.

Lemma list_find_None_fresh pid (l : list CartItem.t) :
  list_find (fun it => CartItem.product it = pid) l = None ->
  pid ∉ CartItem.product <$> l.
Proof.
  intros Hnone%list_find_None Hin.
  apply list_elem_of_fmap in Hin as (x & -> & Hx).
  rewrite Forall_forall in Hnone. now apply (Hnone x Hx).
Qed.

Lemma addToCart_effect ob now requester pid q s :
  (1 <= q)%Z -> outcome_ok (Some requester) s ob (addToCart now requester pid q s).
Proof.
  intros Hq.
  destruct (addToCart_cases now requester pid q s)
    as [(e & ->)|(p & c' & _ & _ & _ & -> & Htot & Hitems)]; [quiet|].
  cbn [snd]. apply eff_cart; [apply acts_as_self|assumption|]. intros Hold.
  destruct Hitems as [(i & item & Hfind & _ & ->)|(Hnone & ->)].
  - apply list_find_Some in Hfind as (Hlook & _).
    apply lines_ok_alter; [reflexivity| |assumption].
    intros x Hx. rewrite Hlook in Hx. injection Hx as <-. cbn.
    destruct Hold as [_ Hall]. rewrite Forall_forall in Hall.
    specialize (Hall item (list_elem_of_lookup_2 _ _ _ Hlook)). cbn in Hall. lia.
  - apply lines_ok_snoc; [now apply list_find_None_fresh|assumption|assumption].
Qed.

Lemma post_cart_add_effect ob now requester pid quantity s :
  outcome_ok (Some requester) s ob (post_cart_add now requester pid quantity s).
Proof.
  unfold post_cart_add.
  destruct (validateAddToCart pid quantity) as [|err errs] eqn:Hval; [|quiet].
  apply addToCart_effect. apply (validateAddToCart_ok _ _ Hval).
Qed.

Lemma Cart_removeItem_cases now user pid c s :
  (list_find (fun it => CartItem.product it = pid) (Cart.items c) = None /\
   Cart_removeItem now user pid c s = (Err (PlainError "Product not found in cart"), s)) \/
  (exists i item,
     list_find (fun it => CartItem.product it = pid) (Cart.items c) = Some (i, item) /\
     Cart_removeItem now user pid c s =
     (Ok (Cart_presave now
            (Cart_calculateTotals (Cart.set_items (delete i (Cart.items c)) c))),
      set_carts
        (<[user := Cart_presave now
                     (Cart_calculateTotals (Cart.set_items (delete i (Cart.items c)) c))]>
           (carts s)) s)).
Proof.
  unfold Cart_removeItem, findIndex.
  destruct (list_find _ _) as [[i item]|] eqn:Hfind; cbn [fmap option_fmap option_map fst].
  - right. exists i, item. split; [reflexivity|]. apply Cart_save_run.
  - left. now split.
Qed.

Lemma Cart_updateItemQuantity_cases now user pid q c s :
  (list_find (fun it => CartItem.product it = pid) (Cart.items c) = None /\
   Cart_updateItemQuantity now user pid q c s =
   (Err (PlainError "Product not found in cart"), s)) \/
  (exists i item items',
     list_find (fun it => CartItem.product it = pid) (Cart.items c) = Some (i, item) /\
     items' = (if (q <=? 0)%Z then delete i (Cart.items c)
               else alter (CartItem.set_quantity q) i (Cart.items c)) /\
     Cart_updateItemQuantity now user pid q c s =
     (Ok (Cart_presave now (Cart_calculateTotals (Cart.set_items items' c))),
      set_carts
        (<[user := Cart_presave now (Cart_calculateTotals (Cart.set_items items' c))]>
           (carts s)) s)).
Proof.
  unfold Cart_updateItemQuantity, findIndex.
  destruct (list_find _ _) as [[i item]|] eqn:Hfind; cbn [fmap option_fmap option_map fst].
  - right. exists i, item. eexists. split; [reflexivity|]. split; [reflexivity|].
    apply Cart_save_run.
  - left. now split.
Qed.

Lemma removeFromCart_effect ob now requester pid s :
  outcome_ok (Some requester) s ob (removeFromCart now requester pid s).
Proof.
  unfold removeFromCart.
  destruct (Cart_findByUser_cases (user_id requester) s)
    as [(c & Hc & Hact & Hfound)|Hnone].
  - rewrite (bind_ok _ _ _ _ _ Hfound).
    destruct (Cart_removeItem_cases now (user_id requester) pid c s)
      as [(_ & Herr)|(i & item & _ & Hok)].
    + rewrite (bind_err _ _ _ _ _ Herr). quiet.
    + rewrite (bind_ok _ _ _ _ _ Hok). cbn [snd ret].
      apply eff_cart; [apply acts_as_self|apply totals_ok_presave|].
      rewrite (old_lines_found _ _ _ Hc). cbn. apply lines_ok_delete.
  - rewrite (bind_ok _ _ _ _ _ Hnone). quiet.
Qed.

Lemma updateCartItem_effect ob now requester pid q s :
  (1 <= q)%Z -> outcome_ok (Some requester) s ob (updateCartItem now requester pid q s).
Proof.
  intros Hq. unfold updateCartItem.
  destruct (Z.ltb_spec q 0); [lia|].
  destruct (Cart_findByUser_cases (user_id requester) s)
    as [(c & Hc & Hact & Hfound)|Hnone];
    [|rewrite (bind_ok _ _ _ _ _ Hnone); quiet].
  rewrite (bind_ok _ _ _ _ _ Hfound).
  destruct (Z.eqb_spec q 0); [lia|].
  rewrite (bind_ok _ _ _ _ _ (Product_findById_run _ _)).
  destruct (products s !! pid) as [p|]; [|quiet].
  destruct (negb _); [quiet|].
  destruct (_ <? _)%Z; [quiet|].
  destruct (Cart_updateItemQuantity_cases now (user_id requester) pid q c s)
    as [(_ & Herr)|(i & item & items' & _ & -> & Hok)].
  - rewrite (bind_err _ _ _ _ _ Herr). quiet.
  - rewrite (bind_ok _ _ _ _ _ Hok). cbn [snd ret].
    apply eff_cart; [apply acts_as_self|apply totals_ok_presave|].
    rewrite (old_lines_found _ _ _ Hc). cbn.
    destruct (Z.leb_spec q 0); [lia|].
    apply lines_ok_alter; [reflexivity|]. intros x _. cbn. lia.
Qed.

Lemma put_cart_update_effect ob now requester pid quantity s :
  outcome_ok (Some requester) s ob (put_cart_update now requester pid quantity s).
Proof.
  unfold put_cart_update.
  destruct (validateUpdateCartItem pid quantity) as [|err errs] eqn:Hval.
  - destruct (validateUpdateCartItem_ok _ _ Hval) as (_ & q & -> & Hq).
    apply updateCartItem_effect. lia.
  - destruct quantity; quiet.
Qed.

Lemma clearCart_effect ob now requester s :
  outcome_ok (Some requester) s ob (clearCart now requester s).
Proof.
  unfold clearCart.
  destruct (Cart_findByUser_cases (user_id requester) s)
    as [(c & Hc & Hact & Hfound)|Hnone];
    [|rewrite (bind_ok _ _ _ _ _ Hnone); quiet].
  rewrite (bind_ok _ _ _ _ _ Hfound). unfold Cart_clearCart.
  rewrite (bind_ok _ _ _ _ _ (Cart_save_run _ _ _ _)). cbn [snd ret].
  apply eff_cart; [apply acts_as_self|apply totals_ok_presave|]. intros _. apply lines_ok_nil.
Qed.

Lemma Cart_validateItems_run now user c s :
  Cart_validateItems now user c s =
  match omap (fun item => fst (validate_item (products s) item)) (Cart.items c) with
  | [] =>
      let c2 := Cart_presave now
                  (Cart_calculateTotals
                     (Cart.set_items
                        (map (fun item => snd (validate_item (products s) item))
                             (Cart.items c)) c)) in
      (Ok ([], c2), set_carts (<[user := c2]> (carts s)) s)
  | e :: errs =>
      (Ok (e :: errs,
           Cart.set_items
             (map (fun item => snd (validate_item (products s) item)) (Cart.items c)) c),
       s)
  end.
Proof.
  unfold Cart_validateItems, gets. unfold bind at 1.
  rewrite validate_loop_spec.
  destruct (omap _ _); [|reflexivity].
  now rewrite (bind_ok _ _ _ _ _ (Cart_save_run _ _ _ _)).
Qed.

Lemma validateCart_effect ob now requester s :
  outcome_ok (Some requester) s ob (validateCart now requester s).
Proof.
  unfold validateCart.
  destruct (Cart_findByUser_cases (user_id requester) s)
    as [(c & Hc & Hact & Hfound)|Hnone];
    [|rewrite (bind_ok _ _ _ _ _ Hnone); quiet].
  rewrite (bind_ok _ _ _ _ _ Hfound).
  unfold bind. rewrite Cart_validateItems_run.
  destruct (omap _ _); cbn; [|quiet].
  apply eff_cart; [apply acts_as_self|apply totals_ok_presave|].
  rewrite (old_lines_found _ _ _ Hc). cbn. apply lines_ok_refresh.
Qed.

Lemma getCart_effect ob now requester s :
  outcome_ok (Some requester) s ob (getCart now requester s).
Proof.
  destruct (Cart_findByUser_cases (user_id requester) s)
    as [(c & Hc & Hact & Hfound)|Hnone].
  - pose proof (validate_loop_spec (products s) (Cart.items c)) as Hloop.
    destruct (omap _ _) as [|e errs] eqn:Herrs.
    + rewrite (getCart_clean now requester s c _ Hc Hact Hloop). cbn [snd].
      apply eff_cart; [apply acts_as_self|apply totals_ok_presave|].
      rewrite (old_lines_found _ _ _ Hc). cbn. apply lines_ok_refresh.
    + rewrite (getCart_pruned now requester s c _ _ _ Hc Hact Hloop). cbn [snd].
      apply eff_cart; [apply acts_as_self|apply totals_ok_presave|].
      rewrite (old_lines_found _ _ _ Hc). cbn. intros Hold.
      now apply lines_ok_filter, lines_ok_refresh.
  - unfold getCart. rewrite (bind_ok _ _ _ _ _ Hnone). quiet.
Qed.

(** *** Products *)

Lemma updateProduct_effect ob id price s :
  outcome_ok None s ob (updateProduct id (Product.set_price price) s).
Proof.
  unfold updateProduct. rewrite (bind_ok _ _ _ _ _ (Product_findById_run _ _)).
  destruct (products s !! id) as [p|] eqn:Hp; [|quiet].
  cbn. eapply eff_product; [reflexivity|eassumption|]. now cbn.
Qed.

Lemma deleteProduct_effect ob id s :
  outcome_ok None s ob (deleteProduct id s).
Proof.
  unfold deleteProduct. rewrite (bind_ok _ _ _ _ _ (Product_findById_run _ _)).
  destruct (products s !! id) as [p|] eqn:Hp; [|quiet].
  cbn. rewrite (alter_as_insert _ _ _ _ Hp).
  eapply eff_product; [reflexivity|eassumption|]. now cbn.
Qed.

Lemma updateStock_effect ob id q operation s :
  outcome_ok None s ob (updateStock id q operation s).
Proof.
  unfold updateStock.
  destruct (Z.ltb_spec q 0) as [|Hq]; [quiet|].
  rewrite (bind_ok _ _ _ _ _ (Product_findById_run _ _)).
  destruct (products s !! id) as [p|] eqn:Hp; [|quiet].
  destruct (String.eqb operation "set").
  { cbn. eapply eff_product; [reflexivity|eassumption|]. now cbn. }
  destruct (String.eqb operation "increase").
  { cbn. eapply eff_product; [reflexivity|eassumption|]. cbn. lia. }
  destruct (String.eqb operation "decrease"); [|quiet].
  destruct (Z.ltb_spec (Product.stock p) q); [quiet|].
  cbn. eapply eff_product; [reflexivity|eassumption|]. cbn. lia.
Qed.

(** *** Every request *)

Lemma run_effect op s : effect (requester_of op) s (created_body op) (run op s).
Proof.
  destruct op; cbn [run created_body requester_of]; apply outcome_effect.
  - apply post_orders_effect.
  - apply updateOrderStatus_effect.
  - apply cancelOrder_effect.
  - apply createStripePaymentIntent_effect.
  - apply handleStripePaymentSuccess_effect.
  - apply handleStripePaymentFailure_effect.
  - apply getCart_effect.
  - apply post_cart_add_effect.
  - apply put_cart_update_effect.
  - apply removeFromCart_effect.
  - apply clearCart_effect.
  - apply validateCart_effect.
  - apply updateProduct_effect.
  - apply deleteProduct_effect.
  - apply updateStock_effect.
Qed.


(** ** Invariants of the machine *)

Lemma frozen_refl o : frozen o o.
Proof. unfold frozen. now split_and!. Qed.

Lemma frozen_trans o1 o2 o3 : frozen o1 o2 -> frozen o2 o3 -> frozen o1 o3.
Proof. unfold frozen. intros ? ?. split_and!; destruct_and!; congruence. Qed.

Lemma effect_orders who s ob s' :
  effect who s ob s' ->
  forall id o, orders s !! id = Some o ->
  exists o', orders s' !! id = Some o' /\ frozen o o' /\
             Order.statusHistory o `prefix_of` Order.statusHistory o'.
Proof.
  assert (Hsaved : forall (l : list Order.t) (id0 : nat) (o0 o0' : Order.t),
            l !! id0 = Some o0 -> frozen o0 o0' ->
            Order.statusHistory o0 `prefix_of` Order.statusHistory o0' ->
            forall (id : nat) o, l !! id = Some o ->
            exists o', <[id0 := o0']> l !! id = Some o' /\ frozen o o' /\
                       Order.statusHistory o `prefix_of` Order.statusHistory o').
  { intros l id0 o0 o0' Hl Hf Hp id o Hid.
    destruct (decide (id0 = id)) as [->|Hne].
    - rewrite Hl in Hid. injection Hid as <-. exists o0'.
      split_and!; try done. apply list_lookup_insert_eq. eapply lookup_lt_Some; eassumption.
    - exists o. rewrite list_lookup_insert_ne by assumption.
      split_and!; [assumption|apply frozen_refl|reflexivity]. }
  destruct 1 as [ob|ob id0 o0 o0' Hl Hstep _|ob id0 o0 o0' now reason Hl Hc _
                 |now user body o0 _ _ _ _ _ _|ob user c' _ _ _|ob id0 p p' _ _ _];
    intros id o Hid; cbn [orders set_orders set_carts set_products].
  - exists o. split_and!; [assumption|apply frozen_refl|reflexivity].
  - eapply Hsaved; eauto using doc_step_frozen, doc_step_history.
  - eapply Hsaved; eauto using cancel_frozen, cancel_history_prefix.
  - exists o. split_and!; [|apply frozen_refl|reflexivity].
    rewrite lookup_app_l; [assumption|]. eapply lookup_lt_Some; eassumption.
  - exists o. split_and!; [assumption|apply frozen_refl|reflexivity].
  - exists o. split_and!; [assumption|apply frozen_refl|reflexivity].
Qed.

Lemma effect_orders_wf who s ob s' :
  effect who s ob s' -> Forall order_wf (orders s) -> Forall order_wf (orders s').
Proof.
  destruct 1 as [ob|ob id0 o0 o0' Hl Hstep _|ob id0 o0 o0' now reason Hl Hc _
                 |now user body o0 _ _ _ Hwf _ _|ob user c' _ _ _|ob id0 p p' _ _ _];
    intros Hall; cbn [orders set_orders set_carts set_products]; try assumption.
  - apply Forall_insert; [assumption|].
    eapply doc_step_wf; [eassumption|].
    rewrite Forall_lookup in Hall. eapply Hall; eassumption.
  - apply Forall_insert; [assumption|].
    eapply cancel_wf; [eassumption|].
    rewrite Forall_lookup in Hall. eapply Hall; eassumption.
  - apply Forall_app. split; [assumption|]. now constructor.
Qed.



Lemma quantity_of_nonneg {A} (key : A -> ObjectId) (qty : A -> Z) pid (l : list A) :
  Forall (fun x => (0 <= qty x)%Z) l -> (0 <= quantity_of key qty pid l)%Z.
Proof.
  induction 1 as [|x l Hx _ IH]; cbn; [lia|].
  destruct (decide (key x = pid)); lia.
Qed.

Lemma restock_nonneg lines ps :
  Forall (fun line => (1 <= OrderItem.quantity line)%Z) lines ->
  stock_nonneg ps ->
  stock_nonneg (apply_incs OrderItem.product OrderItem.quantity lines ps).
Proof.
  intros Hq Hps id p' Hp'. rewrite lookup_apply_incs in Hp'.
  destruct (ps !! id) as [p|] eqn:Hp; [|discriminate].
  cbn in Hp'. injection Hp' as <-. cbn.
  pose proof (quantity_of_nonneg OrderItem.product OrderItem.quantity id lines) as Hn.
  specialize (Hps id p Hp).
  assert (0 <= quantity_of OrderItem.product OrderItem.quantity id lines)%Z; [|lia].
  apply Hn. eapply Forall_impl; [exact Hq|]. cbn. intros; lia.
Qed.

Lemma reserve_nonneg items ps :
  NoDup (OrderRequest.product <$> items) ->
  Forall (item_available ps) items ->
  stock_nonneg ps ->
  stock_nonneg
    (apply_incs OrderRequest.product (fun item => (- OrderRequest.quantity item)%Z)
       items ps).
Proof.
  intros Hnd Hall Hps id p' Hp'. rewrite lookup_apply_incs in Hp'.
  destruct (ps !! id) as [p|] eqn:Hp; [|discriminate].
  cbn in Hp'. injection Hp' as <-. cbn.
  destruct (decide (id ∈ OrderRequest.product <$> items)) as [Hin|Hnot].
  - apply list_elem_of_fmap in Hin as (item & -> & Hitem).
    rewrite (quantity_of_NoDup _ _ item _ Hnd Hitem).
    rewrite Forall_forall in Hall.
    destruct (Hall item Hitem) as (q & Hq & _ & Hle).
    rewrite Hp in Hq. injection Hq as <-. lia.
  - rewrite quantity_of_absent by assumption.
    specialize (Hps id p Hp). lia.
Qed.

Lemma effect_stock who s ob s' :
  effect who s ob s' -> distinct_lines ob ->
  Forall order_wf (orders s) -> stock_nonneg (products s) ->
  stock_nonneg (products s').
Proof.
  destruct 1 as [ob|ob id0 o0 o0' Hl Hstep _|ob id0 o0 o0' now reason Hl Hc _
                 |now user body o0 _ _ Hav _ _ _|ob user c' _ _ _|ob id0 p p' _ Hp Hmono];
    intros Hdist Hwf Hps; cbn [products set_orders set_carts set_products];
    try assumption.
  - apply restock_nonneg; [|assumption].
    rewrite Forall_lookup in Hwf. specialize (Hwf _ _ Hl).
    destruct (cancel_frozen _ _ _ _ Hc) as (_ & -> & _).
    apply Hwf.
  - now apply reserve_nonneg.
  - intros id p1 Hp1. destruct (decide (id0 = id)) as [->|Hne].
    + rewrite lookup_insert_eq in Hp1. injection Hp1 as <-.
      apply Hmono. now apply (Hps id p).
    + rewrite lookup_insert_ne in Hp1 by assumption. now apply (Hps id p1).
Qed.

(** X1.  Whatever requests are served, in whatever order, an order that is
    in the store stays at its position with the same owner, line items,
    subtotal, tax, shipping cost, discount, total, amount to pay and
    estimated delivery; and its status history only grows at the end. *)
Theorem orders_are_frozen_and_history_append_only ops : forall s id o,
  orders s !! id = Some o ->
  exists o',
    orders (run_all ops s) !! id = Some o' /\
    frozen o o' /\
    Order.statusHistory o `prefix_of` Order.statusHistory o'.
Proof.
  induction ops as [|op ops IH]; intros s id o Hid; cbn.
  - exists o. split_and!; [assumption|apply frozen_refl|reflexivity].
  - destruct (effect_orders _ _ _ _ (run_effect op s) id o Hid) as (o1 & H1 & Hf1 & Hp1).
    destruct (IH _ id o1 H1) as (o' & H' & Hf' & Hp').
    exists o'. split_and!; [assumption|eapply frozen_trans; eassumption|].
    etransitivity; eassumption.
Qed.

(** X2.  Whatever requests are served, every stored order stays consistent:
    its last history entry carries its current status, a cancelled order has
    its cancellation date and a delivered one its delivery date, a completed
    payment has its payment date, a refunded payment refunds the whole amount
    of an order that was cancelled, and every line has a quantity of at
    least 1. *)
Theorem orders_stay_consistent ops : forall s,
  Forall order_wf (orders s) -> Forall order_wf (orders (run_all ops s)).
Proof.
  induction ops as [|op ops IH]; intros s Hwf; cbn; [assumption|].
  apply IH. eapply effect_orders_wf; [apply run_effect|assumption].
Qed.


(** X4.  As long as no order request names a product on two lines, stock
    never goes negative: from a store with non-negative stock and consistent
    orders, any sequence of requests (order creations, cancellations, stock
    updates, and all the others) leaves every product's stock non-negative. *)
Theorem stock_stays_nonneg_without_duplicate_lines ops : forall s,
  Forall (fun op => distinct_lines (created_body op)) ops ->
  Forall order_wf (orders s) ->
  stock_nonneg (products s) ->
  stock_nonneg (products (run_all ops s)).
Proof.
  induction ops as [|op ops IH]; intros s Hdist Hwf Hps; cbn; [assumption|].
  inversion Hdist; subst.
  apply IH; [assumption| |].
  - eapply effect_orders_wf; [apply run_effect|assumption].
  - eapply effect_stock; [apply run_effect|assumption..].
Qed.


(** The order of scenario A is frozen through the follow-up requests. *)
Lemma orders_are_frozen_and_history_append_only_witness :
  exists o',
    orders (run_all Journey.follow_up Journey.with_order) !! 0%nat = Some o' /\
    frozen Journey.open_order o' /\
    Order.statusHistory Journey.open_order `prefix_of` Order.statusHistory o'.
Proof.
  apply (orders_are_frozen_and_history_append_only Journey.follow_up
           Journey.with_order 0 Journey.open_order).
  reflexivity.
Defined.

Lemma orders_stay_consistent_witness :
  Forall order_wf (orders (run_all Journey.follow_up Journey.with_order)).
Proof.
  apply (orders_stay_consistent Journey.follow_up Journey.with_order).
  cbn. constructor; [|constructor].
  unfold order_wf. cbn. split_and!; try done.
  constructor; [cbn; lia|constructor].
Defined.


Lemma stock_stays_nonneg_without_duplicate_lines_witness :
  stock_nonneg (products (run_all Journey.day Scenario.shop)).
Proof.
  apply (stock_stays_nonneg_without_duplicate_lines Journey.day Scenario.shop).
  - unfold Journey.day. repeat constructor; cbn; compute_done.
  - constructor.
  - change (map_Forall (fun _ p => (0 <= Product.stock p)%Z) Scenario.catalog).
    unfold Scenario.catalog.
    repeat (apply map_Forall_insert_2; [cbn; lia|]). apply map_Forall_empty.
Defined.




(** ** Who can change what *)

Lemma carts_after_clear_other now user cs v :
  user <> v -> carts_after_clear now user cs !! v = cs !! v.
Proof.
  intros Hne. unfold carts_after_clear.
  destruct (cs !! user) as [c|]; [|reflexivity].
  destruct (Cart.isActive c); [|reflexivity].
  now rewrite lookup_insert_ne.
Qed.

Lemma effect_other_cart who s ob s' u v :
  effect who s ob s' -> who = Some u -> user_id u <> v ->
  carts s' !! v = carts s !! v.
Proof.
  destruct 1 as [ob|ob id0 o0 o0' _ _ _|ob id0 o0 o0' now reason _ _ _
                 |now user body o0 Hwho _ _ _ _ _|ob user c' Hwho _ _|ob id0 p p' _ _ _];
    intros -> Hne; cbn [carts set_orders set_carts set_products]; try reflexivity.
  - apply carts_after_clear_other. now rewrite <- (Hwho u eq_refl).
  - apply lookup_insert_ne. now rewrite <- (Hwho u eq_refl).
Qed.

Lemma effect_other_order who s ob s' u (id : nat) o :
  effect who s ob s' -> who = Some u ->
  user_role u <> role_admin -> Order.user o <> user_id u ->
  orders s !! id = Some o -> orders s' !! id = Some o.
Proof.
  assert (Hsave : forall (l : list Order.t) (id0 : nat) o0 o0',
            l !! id0 = Some o0 -> may_touch (Some u) o0 ->
            user_role u <> role_admin -> Order.user o <> user_id u ->
            l !! id = Some o -> <[id0 := o0']> l !! id = Some o).
  { intros l id0 o0 o0' Hl Htouch Hrole Hown Hid.
    destruct (decide (id0 = id)) as [->|Hne].
    - rewrite Hl in Hid. injection Hid as ->.
      now destruct (Htouch u eq_refl).
    - now rewrite list_lookup_insert_ne. }
  destruct 1 as [ob|ob id0 o0 o0' Hl _ Htouch|ob id0 o0 o0' now reason Hl _ Htouch
                 |now user body o0 _ _ _ _ _ _|ob user c' _ _ _|ob id0 p p' _ _ _];
    intros -> Hrole Hown Hid; cbn [orders set_orders set_carts set_products];
    try assumption.
  - eapply Hsave; eassumption.
  - eapply Hsave; eassumption.
  - rewrite lookup_app_l; [assumption|]. eapply lookup_lt_Some; eassumption.
Qed.

Lemma listing_inc_stock q p : listing (Product.inc_stock q p) = listing p.
Proof. reflexivity. Qed.

Lemma listing_apply_incs {A} (key : A -> ObjectId) (qty : A -> Z) l ps pid :
  listing <$> apply_incs key qty l ps !! pid = listing <$> ps !! pid.
Proof.
  rewrite lookup_apply_incs. now destruct (ps !! pid).
Qed.

Lemma effect_listing who s ob s' u pid :
  effect who s ob s' -> who = Some u ->
  listing <$> products s' !! pid = listing <$> products s !! pid.
Proof.
  destruct 1 as [ob|ob id0 o0 o0' _ _ _|ob id0 o0 o0' now reason _ _ _
                 |now user body o0 _ _ _ _ _ _|ob user c' _ _ _|ob id0 p p' Hwho _ _];
    intros ->; cbn [products set_orders set_carts set_products]; try reflexivity.
  - apply listing_apply_incs.
  - apply listing_apply_incs.
  - discriminate.
Qed.

(** X6.  The requests of ordinary users leave everybody else alone: after
    any sequence of cart, order and payment-intent requests made by users
    other than [v], none of them an administrator, the cart of [v] and every
    order of [v] are exactly what they were. *)
Theorem user_requests_leave_others_alone ops : forall s v,
  Forall (fun op => exists u, requester_of op = Some u /\
                              user_id u <> v /\ user_role u <> role_admin) ops ->
  carts (run_all ops s) !! v = carts s !! v /\
  (forall (id : nat) o, orders s !! id = Some o -> Order.user o = v ->
                        orders (run_all ops s) !! id = Some o).
Proof.
  induction ops as [|op ops IH]; intros s v Hops; [now split|].
  change (run_all (op :: ops) s) with (run_all ops (run op s)).
  inversion Hops as [|? ? (u & Hu & Hne & Hrole) Hrest]; subst.
  destruct (IH (run op s) v Hrest) as [Hcart Horders].
  pose proof (run_effect op s) as Heff.
  split.
  - rewrite Hcart. eapply effect_other_cart; eassumption.
  - intros id o Hid Hown. apply Horders; [|assumption].
    eapply effect_other_order; try eassumption. congruence.
Qed.

Lemma user_requests_leave_others_alone_witness :
  carts (run_all Journey.customers Scenario.shop) !! user_id Scenario.carol =
    Some Scenario.carol_cart /\
  (forall (id : nat) o,
     orders Scenario.shop !! id = Some o -> Order.user o = user_id Scenario.carol ->
     orders (run_all Journey.customers Scenario.shop) !! id = Some o).
Proof.
  apply (user_requests_leave_others_alone Journey.customers Scenario.shop
           (user_id Scenario.carol)).
  unfold Journey.customers.
  repeat (apply Forall_cons; split;
          [eexists; split; [reflexivity|split; cbn; discriminate]|]).
  apply Forall_nil_2.
Defined.

(** X7.  The requests of users change nothing of the catalog but stock:
    after any sequence of cart, order and payment-intent requests, every
    product is listed with the name, the price and the availability flag it
    had, and no product has appeared or disappeared. *)
Theorem user_requests_change_only_stock ops : forall s pid,
  Forall (fun op => is_Some (requester_of op)) ops ->
  listing <$> products (run_all ops s) !! pid = listing <$> products s !! pid.
Proof.
  induction ops as [|op ops IH]; intros s pid Hops; [reflexivity|].
  change (run_all (op :: ops) s) with (run_all ops (run op s)).
  inversion Hops as [|? ? [u Hu] Hrest]; subst.
  rewrite (IH (run op s) pid Hrest).
  eapply effect_listing; [apply run_effect|eassumption].
Qed.

Lemma user_requests_change_only_stock_witness :
  listing <$> products (run_all Journey.customers Scenario.shop) !! Scenario.P2 =
  Some ("Gadget", 9999 # 100, true).
Proof.
  rewrite (user_requests_change_only_stock Journey.customers Scenario.shop Scenario.P2).
  - reflexivity.
  - unfold Journey.customers.
    repeat (apply Forall_cons; split; [eexists; reflexivity|]).
    apply Forall_nil_2.
Defined.


(** ** Adding to the cart *)





(** ** Reading and validating the cart *)

Lemma validate_item_orderable ps item item' :
  validate_item ps item = (None, item') ->
  line_orderable ps item' /\
  CartItem.product item' = CartItem.product item /\
  CartItem.quantity item' = CartItem.quantity item.
Proof.
  unfold validate_item, line_orderable.
  destruct (ps !! CartItem.product item) as [p|] eqn:Hp; [|discriminate].
  destruct (Product.isActive p) eqn:Hact; cbn [negb]; [|discriminate].
  destruct (Z.ltb_spec (Product.stock p) (CartItem.quantity item)); [discriminate|].
  destruct (Qeq_bool _ _) eqn:Hprice; intros [= <-]; cbn.
  - split_and!; try reflexivity. exists p. split_and!; try done.
    now apply Qeq_bool_iff.
  - split_and!; try reflexivity. exists p. split_and!; try done.
Qed.

Lemma validate_item_same_line ps item :
  CartItem.product (snd (validate_item ps item)) = CartItem.product item /\
  CartItem.quantity (snd (validate_item ps item)) = CartItem.quantity item.
Proof.
  unfold validate_item.
  destruct (ps !! CartItem.product item) as [p|]; [|now split].
  destruct (negb _); [now split|].
  destruct (_ <? _)%Z; [now split|].
  destruct (Qeq_bool _ _); now split.
Qed.

Lemma omap_nil_all {A B} (f : A -> option B) (l : list A) :
  omap f l = [] -> Forall (fun x => f x = None) l.
Proof.
  induction l as [|x l IH]; cbn; [constructor|].
  destruct (f x) eqn:Hx; [discriminate|]. intros Hl. constructor; auto.
Qed.

Lemma refreshed_orderable ps items :
  omap (fun item => fst (validate_item ps item)) items = [] ->
  Forall (line_orderable ps) (map (fun item => snd (validate_item ps item)) items).
Proof.
  intros Hall%omap_nil_all. induction Hall as [|item items Hx _ IH]; cbn;
    [constructor|].
  constructor; [|assumption].
  destruct (validate_item ps item) as [e item'] eqn:Hv. cbn in Hx. subst e.
  apply (validate_item_orderable _ _ _ Hv).
Qed.





(** X10.  Validating the cart never drops or changes the quantity of a
    line.  When some line cannot be ordered it reports every such line and
    writes nothing; when all can, it stores the cart with every price
    brought to the catalog's. *)
Theorem validateCart_reports_and_keeps_the_lines now requester s c :
  carts s !! user_id requester = Some c ->
  Cart.isActive c = true ->
  exists r s' v,
    validateCart now requester s = (Ok r, s') /\
    validated_cart r = Some v /\
    map CartItem.product (view_items v) = map CartItem.product (Cart.items c) /\
    map CartItem.quantity (view_items v) = map CartItem.quantity (Cart.items c) /\
    (forall item, item ∈ Cart.items c -> item_invalid (products s) item ->
       isValid r = false /\ s' = s /\
       exists e, e ∈ errors r /\ productId e = CartItem.product item) /\
    ((forall item, item ∈ Cart.items c -> ~ item_invalid (products s) item) ->
       isValid r = true /\ errors r = [] /\
       view <$> carts s' !! user_id requester = Some v /\
       Forall (line_orderable (products s)) (view_items v)).
Proof.
  intros Hc Hact.
  assert (Hfound : Cart_findByUser (user_id requester) s = (Ok (Some c), s)).
  { unfold Cart_findByUser, gets. now rewrite Hc, Hact. }
  assert (Hsame : forall items,
            map CartItem.product
              (map (fun item => snd (validate_item (products s) item)) items) =
              map CartItem.product items /\
            map CartItem.quantity
              (map (fun item => snd (validate_item (products s) item)) items) =
              map CartItem.quantity items).
  { induction items as [|x items [IH1 IH2]]; cbn; [now split|].
    destruct (validate_item_same_line (products s) x) as [-> ->].
    now rewrite IH1, IH2. }
  unfold validateCart. rewrite (bind_ok _ _ _ _ _ Hfound).
  unfold bind. rewrite Cart_validateItems_run.
  destruct (omap _ _) as [|e errs] eqn:Herrs; cbn beta iota zeta.
  - eexists _, _, _. split; [reflexivity|]. cbn [validated_cart isValid errors].
    split; [reflexivity|]. cbn [view view_items Cart_presave Cart_calculateTotals
                                Cart.items Cart.set_items].
    destruct (Hsame (Cart.items c)) as [Hp Hq].
    split_and!; [exact Hp|exact Hq| |].
    + intros item Hitem Hinv. exfalso.
      destruct (validate_item_invalid _ _ Hinv) as (e & He & _).
      apply omap_nil_all in Herrs. rewrite Forall_forall in Herrs.
      specialize (Herrs item Hitem). cbn in Herrs. rewrite He in Herrs. discriminate.
    + intros _. split_and!; try reflexivity.
      * cbn. now rewrite lookup_insert_eq.
      * now apply refreshed_orderable.
  - eexists _, _, _. split; [reflexivity|]. cbn [validated_cart isValid errors].
    split; [reflexivity|]. cbn [view view_items Cart.items Cart.set_items].
    destruct (Hsame (Cart.items c)) as [Hp Hq].
    split_and!; [exact Hp|exact Hq| |].
    + intros item Hitem Hinv. split_and!; try reflexivity.
      destruct (validate_item_invalid _ _ Hinv) as (e' & He' & Hid).
      exists e'. split; [|exact Hid].
      rewrite <- Herrs. apply list_elem_of_omap. exists item.
      split; [assumption|now rewrite He'].
    + intros Hfine. exfalso.
      assert (He : e ∈ e :: errs) by constructor.
      rewrite <- Herrs in He. apply list_elem_of_omap in He as (item & Hitem & He).
      destruct (validate_item (products s) item) as [e0 item'] eqn:Hv. cbn in He.
      subst e0. destruct (validate_item_problem _ _ _ _ Hv) as (_ & _ & Hinv).
      exact (Hfine item Hitem Hinv).
Qed.

Lemma validateCart_reports_and_keeps_the_lines_witness :
  exists r,
    validateCart 7 Scenario.carol Scenario.shop = (Ok r, Scenario.shop) /\
    isValid r = false /\
    exists e, e ∈ errors r /\ productId e = Scenario.P3.
Proof.
  destruct (validateCart_reports_and_keeps_the_lines 7 Scenario.carol Scenario.shop
              Scenario.carol_cart)
    as (r & s' & v & Hrun & _ & _ & _ & Hbad & _); [reflexivity|reflexivity|].
  destruct (Hbad (CartItem.mk Scenario.P3 1 10)) as (Hvalid & -> & e & He & Hid).
  - apply list_elem_of_In. simpl. tauto.
  - left. reflexivity.
  - exists r. split_and!; [assumption|assumption|]. exists e. now split.
Defined.


(** ** From the cart to the order *)

Lemma round2_Qeq a b : (a == b)%Q -> round2 a = round2 b.
Proof.
  intros H. unfold round2, Math_round.
  assert (Qfloor (a * 100 + (1 # 2)) = Qfloor (b * 100 + (1 # 2))) as ->;
    [now rewrite H|reflexivity].
Qed.







(** ** Requests that change nothing, and requests that undo one another *)

Lemma transition_forbidden_same st : transition_forbidden st st = false.
Proof. now destruct st. Qed.

Lemma set_orders_id s : set_orders (orders s) s = s.
Proof. now destruct s. Qed.

(** X12.  Sending an order the status it already has is accepted, whatever
    that status is, and records nothing: no history entry, no date, and the
    note is dropped. *)
Theorem updateOrderStatus_to_the_current_status_records_nothing now id note s o :
  orders s !! id = Some o ->
  updateOrderStatus now id (Order.status o) note s = (Ok o, s).
Proof.
  intros Hlook.
  rewrite (updateOrderStatus_allowed _ _ _ _ _ _ Hlook (transition_forbidden_same _)).
  rewrite updateStatus_same, list_insert_id by assumption.
  now rewrite set_orders_id.
Qed.

Lemma updateOrderStatus_to_the_current_status_records_nothing_witness :
  updateOrderStatus 9 0 pending "once more" Journey.with_order =
  (Ok Journey.open_order, Journey.with_order).
Proof.
  apply (updateOrderStatus_to_the_current_status_records_nothing 9 0 "once more"
           Journey.with_order Journey.open_order).
  reflexivity.
Defined.








(** ** The totals of an order *)

Lemma frozen_priced o o' : frozen o o' -> priced o -> priced o'.
Proof.
  unfold frozen, priced.
  intros (_ & -> & -> & -> & -> & -> & -> & -> & _). trivial.
Qed.

Lemma effect_orders_priced who s ob s' :
  effect who s ob s' -> Forall priced (orders s) -> Forall priced (orders s').
Proof.
  destruct 1 as [ob|ob id0 o0 o0' Hl Hstep _|ob id0 o0 o0' now reason Hl Hc _
                 |now user body o0 _ _ _ _ Hpriced _|ob user c' _ _ _|ob id0 p p' _ _ _];
    intros Hall; cbn [orders set_orders set_carts set_products]; try assumption.
  - apply Forall_insert; [assumption|].
    apply (frozen_priced o0); [now apply doc_step_frozen|].
    rewrite Forall_lookup in Hall. eapply Hall; eassumption.
  - apply Forall_insert; [assumption|].
    apply (frozen_priced o0); [eapply cancel_frozen; eassumption|].
    rewrite Forall_lookup in Hall. eapply Hall; eassumption.
  - apply Forall_app. split; [assumption|]. now constructor.
Qed.

(** X15.  Whatever requests are served, the totals of every stored order
    stay those of its lines: each line total is price times quantity, the
    subtotal is their sum, tax is a tenth of the subtotal, shipping is free
    above 500 and 50 otherwise, the total is subtotal plus tax plus shipping
    less discount, and the amount to pay is the total. *)
Theorem orders_stay_priced ops : forall s,
  Forall priced (orders s) -> Forall priced (orders (run_all ops s)).
Proof.
  induction ops as [|op ops IH]; intros s Hall; [assumption|].
  change (run_all (op :: ops) s) with (run_all ops (run op s)).
  apply IH. eapply effect_orders_priced; [apply run_effect|assumption].
Qed.

Lemma orders_stay_priced_witness :
  Forall priced (orders (run_all Journey.follow_up Journey.with_order)).
Proof.
  apply (orders_stay_priced Journey.follow_up Journey.with_order).
  cbn. constructor; [|constructor].
  unfold priced. cbn. split_and!; try (vm_compute; reflexivity).
  constructor; [vm_compute; reflexivity|constructor].
Defined.


(** ** Payments *)

Lemma createStripePaymentIntent_run requester id amount intentId s o :
  orders s !! id = Some o ->
  Order.user o = user_id requester ->
  PaymentInfo.status (Order.paymentInfo o) <> pay_completed ->
  Qeq_bool amount (Order.totalAmount o) = true ->
  createStripePaymentIntent requester id amount intentId s =
  (Ok intentId, set_orders (<[id := record_intent intentId o]> (orders s)) s).
Proof.
  intros Hlook Hown Hst Hamount.
  unfold createStripePaymentIntent, Order_findById, gets. unfold bind at 1.
  rewrite Hlook.
  rewrite (bool_decide_eq_false_2 (Order.user o ≠ user_id requester))
    by (intros Hne; now apply Hne).
  rewrite (bool_decide_eq_false_2 _ Hst), Hamount. reflexivity.
Qed.

Lemma createStripePaymentIntent_paid requester id amount intentId s o :
  orders s !! id = Some o ->
  Order.user o = user_id requester ->
  PaymentInfo.status (Order.paymentInfo o) = pay_completed ->
  createStripePaymentIntent requester id amount intentId s =
  (Err (ValidationError "Order is already paid"), s).
Proof.
  intros Hlook Hown Hst.
  unfold createStripePaymentIntent, Order_findById, gets. unfold bind at 1.
  rewrite Hlook.
  rewrite (bool_decide_eq_false_2 (Order.user o ≠ user_id requester))
    by (intros Hne; now apply Hne).
  now rewrite (bool_decide_eq_true_2 _ Hst).
Qed.

(** X16.  Paying an order end to end: for a pending, unpaid order of the
    requester, a payment intent for the order's total is accepted and
    recorded; the gateway's success event for that intent then completes
    the payment, dates it with the intent's creation time and confirms the
    order, changing nothing of what was ordered; and a further payment
    intent for the order is refused as already paid. *)
Theorem an_order_is_paid_once now requester id amount intentId t s o :
  orders s !! id = Some o ->
  Order.user o = user_id requester ->
  Order.status o = pending ->
  PaymentInfo.status (Order.paymentInfo o) <> pay_completed ->
  PaymentInfo.paidAt (Order.paymentInfo o) = None ->
  Qeq_bool amount (Order.totalAmount o) = true ->
  (forall (j : nat) o', (j < id)%nat -> orders s !! j = Some o' ->
                        ~ has_intent intentId o') ->
  exists s1 s2 o2,
    createStripePaymentIntent requester id amount intentId s = (Ok intentId, s1) /\
    handleStripePaymentSuccess now (mkIntent intentId t) s1 = (Ok tt, s2) /\
    orders s2 !! id = Some o2 /\
    Order.status o2 = confirmed /\
    PaymentInfo.status (Order.paymentInfo o2) = pay_completed /\
    PaymentInfo.paidAt (Order.paymentInfo o2) = Some (t * 1000)%Z /\
    frozen o o2 /\
    forall amount' intentId',
      createStripePaymentIntent requester id amount' intentId' s2 =
      (Err (ValidationError "Order is already paid"), s2).
Proof.
  intros Hlook Hown Hpending Hst Hpaid Hamount Hfirst.
  set (o1 := record_intent intentId o).
  set (s1 := set_orders (<[id := o1]> (orders s)) s).
  assert (Hlt : (id < length (orders s))%nat) by (eapply lookup_lt_Some; eassumption).
  assert (Hfind : list_find (has_intent intentId) (orders s1) = Some (id, o1)).
  { apply list_find_Some. cbn. split_and!.
    - now apply list_lookup_insert_eq.
    - reflexivity.
    - intros j o' Hj Hji. rewrite list_lookup_insert_ne in Hj by lia.
      now apply (Hfirst j). }
  set (o2 := updatePaymentStatus now pay_completed (Some intentId)
               (Some (t * 1000)%Z) o1).
  set (s2 := set_orders (<[id := o2]> (orders s1)) s1).
  destruct (updatePaymentStatus_completed now (Some intentId) (t * 1000)%Z o1)
    as (Hst2 & _ & Hpaid2 & Hconfirm & _).
  fold o2 in Hst2, Hpaid2, Hconfirm.
  destruct (Hconfirm Hpending Hpaid) as [Hconfirmed _].
  assert (Hlook2 : orders s2 !! id = Some o2).
  { cbn. apply list_lookup_insert_eq. now rewrite length_insert. }
  assert (Hfrozen : frozen o o2).
  { apply (frozen_trans _ o1); [apply doc_step_frozen; constructor|].
    apply doc_step_frozen. constructor. }
  exists s1, s2, o2. split_and!; try assumption.
  - now apply createStripePaymentIntent_run.
  - rewrite handleStripePaymentSuccess_run. cbn [intent_id created].
    rewrite Hfind. rewrite decide_False; [reflexivity|exact Hst].
  - rewrite Hpaid2. cbn. now rewrite Hpaid.
  - intros amount' intentId'.
    apply (createStripePaymentIntent_paid _ _ _ _ _ o2); [assumption| |assumption].
    destruct Hfrozen as (-> & _). exact Hown.
Qed.

Lemma an_order_is_paid_once_witness :
  exists s1 s2 o2,
    createStripePaymentIntent Scenario.alice 0 160 "pi_2" Journey.with_order =
      (Ok "pi_2", s1) /\
    handleStripePaymentSuccess 3 (mkIntent "pi_2" 1700000200) s1 = (Ok tt, s2) /\
    orders s2 !! 0%nat = Some o2 /\
    Order.status o2 = confirmed /\
    PaymentInfo.status (Order.paymentInfo o2) = pay_completed.
Proof.
  destruct (an_order_is_paid_once 3 Scenario.alice 0 160 "pi_2" 1700000200
              Journey.with_order Journey.open_order)
    as (s1 & s2 & o2 & H1 & H2 & H3 & H4 & H5 & _);
    try reflexivity; try discriminate.
  - intros j o' Hj. lia.
  - exists s1, s2, o2. now split_and!.
Defined.

(** X17.  The gateway's failure event marks the payment of the order that
    carries the intent as failed whatever its state, a completed payment
    included; it touches neither the order status, nor the history, nor the
    payment date; and the owner can then open a new payment intent for an
    order that had been paid. *)
Theorem a_failure_event_unpays_the_order now paymentIntent s id o :
  list_find (has_intent (intent_id paymentIntent)) (orders s) = Some (id, o) ->
  exists o' s',
    handleStripePaymentFailure now paymentIntent s = (Ok tt, s') /\
    orders s' !! id = Some o' /\
    PaymentInfo.status (Order.paymentInfo o') = pay_failed /\
    PaymentInfo.paidAt (Order.paymentInfo o') = PaymentInfo.paidAt (Order.paymentInfo o) /\
    Order.status o' = Order.status o /\
    Order.statusHistory o' = Order.statusHistory o /\
    forall requester intentId,
      Order.user o = user_id requester ->
      fst (createStripePaymentIntent requester id (Order.totalAmount o) intentId s') =
      Ok intentId.
Proof.
  intros Hfind. rewrite handleStripePaymentFailure_run, Hfind.
  apply list_find_Some in Hfind as (Hlook & _).
  exists (updatePaymentStatus now pay_failed None None o).
  eexists. split; [reflexivity|].
  assert (Hlook' : <[id := updatePaymentStatus now pay_failed None None o]> (orders s)
                     !! id = Some (updatePaymentStatus now pay_failed None None o)).
  { apply list_lookup_insert_eq. eapply lookup_lt_Some; eassumption. }
  cbn [orders set_orders]. split_and!; try reflexivity; [exact Hlook'|].
  intros requester intentId Hown.
  erewrite createStripePaymentIntent_run; [reflexivity|exact Hlook'|exact Hown| |].
  - discriminate.
  - apply Qeq_bool_iff. reflexivity.
Qed.

Lemma a_failure_event_unpays_the_order_witness :
  exists o' s',
    handleStripePaymentFailure 5 Scenario.intent
      (Scenario.store_with (Scenario.order confirmed pay_completed)) = (Ok tt, s') /\
    orders s' !! 0%nat = Some o' /\
    PaymentInfo.status (Order.paymentInfo o') = pay_failed /\
    Order.status o' = confirmed.
Proof.
  destruct (a_failure_event_unpays_the_order 5 Scenario.intent
              (Scenario.store_with (Scenario.order confirmed pay_completed))
              0 (Scenario.order confirmed pay_completed))
    as (o' & s' & H1 & H2 & H3 & _ & H4 & _); [reflexivity|].
  exists o', s'. now split_and!.
Defined.


(** ** Withdrawing a product *)

(** X18.  A product withdrawn with DELETE /api/products/:id stays in the
    catalog with its name, price and stock, but can no longer be bought:
    adding it to a cart is refused, every order request that names it is
    refused without any write, and every cart line for it has become a line
    that reading the cart reports and drops. *)
Theorem a_withdrawn_product_cannot_be_bought id s p :
  products s !! id = Some p ->
  exists s',
    deleteProduct id s = (Ok tt, s') /\
    products s' !! id =
      Some (Product.mk (Product.name p) (Product.price p) (Product.stock p) false) /\
    carts s' = carts s /\ orders s' = orders s /\
    (forall now requester q,
       addToCart now requester id q s' =
       (Err (ValidationError "Product is not available"), s')) /\
    (forall now requester body,
       id ∈ OrderRequest.product <$> OrderRequest.items body ->
       exists e, createOrder now requester body s' = (Err e, s')) /\
    (forall item, CartItem.product item = id -> item_invalid (products s') item).
Proof.
  intros Hp.
  set (p' := Product.mk (Product.name p) (Product.price p) (Product.stock p) false).
  exists (set_products (<[id := p']> (products s)) s).
  assert (Hp' : <[id := p']> (products s) !! id = Some p') by apply lookup_insert_eq.
  split_and!; try reflexivity.
  - unfold deleteProduct. rewrite (bind_ok _ _ _ _ _ (Product_findById_run _ _)).
    rewrite Hp. unfold modify. now rewrite (alter_as_insert _ _ _ _ Hp).
  - exact Hp'.
  - intros now requester q. unfold addToCart.
    rewrite (bind_ok _ _ _ _ _ (Product_findById_run _ _)).
    cbn [products set_products]. now rewrite Hp'.
  - intros now requester body Hin.
    destruct (createOrder_refused now requester body
                (set_products (<[id := p']> (products s)) s))
      as (_ & _ & _ & e & _ & _ & _ & Hrun); [|now exists e].
    intros Hall. apply list_elem_of_fmap in Hin as (item & -> & Hitem).
    rewrite Forall_forall in Hall. destruct (Hall item Hitem) as (q & Hq & Hact & _).
    cbn [products set_products] in Hq. rewrite Hp' in Hq. injection Hq as <-.
    discriminate.
  - intros item <-. unfold item_invalid. cbn [products set_products].
    rewrite Hp'. now left.
Qed.

Lemma a_withdrawn_product_cannot_be_bought_witness :
  exists s',
    deleteProduct Scenario.P2 Scenario.shop = (Ok tt, s') /\
    addToCart 1 Scenario.alice Scenario.P2 1 s' =
      (Err (ValidationError "Product is not available"), s').
Proof.
  destruct (a_withdrawn_product_cannot_be_bought Scenario.P2 Scenario.shop
              (Product.mk "Gadget" (9999 # 100) 3 true))
    as (s' & Hdel & _ & _ & _ & Hadd & _); [reflexivity|].
  exists s'. split; [exact Hdel|apply Hadd].
Defined.

(** ** The cart after an order *)





(** ** Rounding to the cent *)

Lemma Qfloor_unique (y : Q) (n : Z) :
  (inject_Z n <= y)%Q -> (y < inject_Z (n + 1))%Q -> Qfloor y = n.
Proof.
  intros Hle Hlt.
  pose proof (Qfloor_le y) as H1. pose proof (Qlt_floor y) as H2.
  assert (Ha : (inject_Z (Qfloor y) < inject_Z (n + 1))%Q)
    by (eapply Qle_lt_trans; eassumption).
  assert (Hb : (inject_Z n < inject_Z (Qfloor y + 1))%Q)
    by (eapply Qle_lt_trans; eassumption).
  rewrite <- Zlt_Qlt in Ha, Hb. lia.
Qed.

(** X20.  [Math.round(x * 100) / 100], by which cart totals are stored, is
    rounding to the nearest cent: the result is a whole number of cents, it
    differs from the exact amount by at most half a cent, and rounding a
    rounded amount changes nothing. *)
Theorem round2_rounds_to_the_nearest_cent (x : Q) :
  (exists n : Z, round2 x == n # 100)%Q /\
  (x - (1 # 200) < round2 x)%Q /\ (round2 x <= x + (1 # 200))%Q /\
  round2 (round2 x) = round2 x.
Proof.
  unfold round2 at 1 2 3. unfold Math_round.
  set (n := Qfloor (x * 100 + (1 # 2))).
  pose proof (Qfloor_le (x * 100 + (1 # 2))) as Hle.
  pose proof (Qlt_floor (x * 100 + (1 # 2))) as Hlt.
  fold n in Hle, Hlt. rewrite inject_Z_plus in Hlt.
  assert (Hn : (inject_Z n / 100 == n # 100)%Q).
  { unfold Qeq, Qdiv, Qmult, Qinv, inject_Z. cbn. lia. }
  split_and!.
  - exists n. exact Hn.
  - rewrite Hn. unfold Qlt, Qle, Qplus, Qminus, Qopp, Qmult, inject_Z in *.
    destruct x as [a b]. cbn in *. nia.
  - rewrite Hn. unfold Qlt, Qle, Qplus, Qminus, Qopp, Qmult, inject_Z in *.
    destruct x as [a b]. cbn in *. nia.
  - unfold round2, Math_round. fold n. f_equal. f_equal.
    apply Qfloor_unique.
    + rewrite Hn. unfold Qle, Qplus, Qmult, inject_Z. cbn. lia.
    + rewrite Hn. unfold Qlt, Qplus, Qmult, inject_Z. cbn. lia.
Qed.


(** ** Removing and changing a cart line *)









(** ** The model's own totals *)

(** X23.  [orderSchema.methods.calculateTotals], which no handler calls,
    agrees with the totals that [createOrder] stores up to the rounding: on
    an order whose totals are those of its lines it recomputes the same
    subtotal and replaces the total by the total rounded to the cent,
    leaving everything else as it is. *)
Theorem calculateTotals_only_rounds_the_total o :
  priced o ->
  (Order.subtotal (Order_calculateTotals o) == Order.subtotal o)%Q /\
  Order.totalAmount (Order_calculateTotals o) = round2 (Order.totalAmount o) /\
  Order.items (Order_calculateTotals o) = Order.items o /\
  Order.tax (Order_calculateTotals o) = Order.tax o /\
  Order.shippingCost (Order_calculateTotals o) = Order.shippingCost o /\
  Order.status (Order_calculateTotals o) = Order.status o /\
  Order.paymentInfo (Order_calculateTotals o) = Order.paymentInfo o /\
  Order.statusHistory (Order_calculateTotals o) = Order.statusHistory o.
Proof.
  intros (_ & Hsub & _ & _ & Htotal & _).
  unfold Order_calculateTotals. cbn. split_and!; try reflexivity.
  - now rewrite Hsub.
  - apply round2_Qeq. rewrite Htotal, Hsub. reflexivity.
Qed.

Lemma calculateTotals_only_rounds_the_total_witness :
  Order.totalAmount (Order_calculateTotals Journey.open_order) = round2 160.
Proof.
  apply (calculateTotals_only_rounds_the_total Journey.open_order).
  unfold priced. cbn. split_and!; try (vm_compute; reflexivity).
  constructor; [vm_compute; reflexivity|constructor].
Defined.
